(** * Warbler: the request handlers of [app.py] over a relational store

    The handlers of [app.py] are embedded as computations of a small
    state-and-exception monad.  The state is the request context: the
    committed tables, the unit of work of [db.session], the Flask session
    entry [CURR_USER_KEY], the request global [g.user] and the flashed
    notices.  An exception that escapes a handler is what Flask turns into
    a 404 (for [get_or_404]) or a 500 response. *)

From Stdlib Require Import ZArith List String Bool Lia.
From Stdlib Require Import DecimalString.
From Stdlib Require Import Sorting.Sorted Sorting.Permutation.
Import ListNotations.

Local Open Scope string_scope.
Local Open Scope Z_scope.

(** ** The tables

    [models.py] is not among the sources.  The columns are the attributes
    the handlers of [app.py] read and write. *)

(** Modelled from the spec: the user table of [models.py]; [password] holds
    the hash. *)
Module User.
Record t := mk {
  id : Z;
  username : string;
  email : string;
  image_url : string;
  header_image_url : string;
  bio : string;
  location : string;
  password : string
}.
End User.

(** Modelled from the spec: the message table of [models.py]; [user_id] is
    the owner. *)
Module Message.
Record t := mk {
  id : Z;
  text : string;
  timestamp : Z;
  user_id : Z
}.
End Message.

(** Modelled from the spec: the like table of [models.py], an edge
    identified by its user id and its message id. *)
Module Likes.
Record t := mk {
  user_id : Z;
  message_id : Z
}.
End Likes.

(** Modelled from the spec: the follow table of [models.py], an edge with a
    follower user id and a followee user id. *)
Module Follows.
Record t := mk {
  follower_id : Z;
  followee_id : Z
}.
End Follows.

Record Store := mkStore {
  users : list User.t;
  messages : list Message.t;
  follows : list Follows.t;
  likes : list Likes.t
}.

(** ** Exceptions and the handler monad *)

Inductive exn :=
| NotFound                (* werkzeug's 404, raised by get_or_404 *)
| KeyError                (* session[CURR_USER_KEY] without the key *)
| AttributeError          (* attribute access on None *)
| ValueError              (* list.remove of an absent element *)
| TypeError               (* a view function that returns None *)
| UnmappedInstanceError   (* db.session.delete(None) *)
| IntegrityError          (* a unique constraint refused at commit *)
| OperationalError        (* the store did not take the commit *)
| DataError.              (* a value too long for its column *)

Inductive Outcome (A : Type) :=
| Return (a : A)
| Raise (e : exn).
Arguments Return {A} a.
Arguments Raise {A} e.

Record Ctx := mkCtx {
  db : Store;                         (* committed tables *)
  uow : Store;                        (* tables as db.session sees them *)
  session : option Z;                 (* session[CURR_USER_KEY], if present *)
  g_user : option User.t;             (* g.user *)
  flashes : list (string * string);   (* flash(message, category) *)
  outages : list bool                 (* false: the next commit is refused *)
}.

Definition M (A : Type) := Ctx -> Outcome A * Ctx.

Definition ret {A} (a : A) : M A := fun c => (Return a, c).

Definition raise {A} (e : exn) : M A := fun c => (Raise e, c).

Definition bind {A B} (m : M A) (k : A -> M B) : M B :=
  fun c => match m c with
           | (Return a, c') => k a c'
           | (Raise e, c') => (Raise e, c')
           end.

(** [try m except e: h] of Python. *)
Definition exn_eqb (e1 e2 : exn) : bool :=
  match e1, e2 with
  | NotFound, NotFound | KeyError, KeyError | AttributeError, AttributeError
  | ValueError, ValueError | TypeError, TypeError
  | UnmappedInstanceError, UnmappedInstanceError
  | IntegrityError, IntegrityError | OperationalError, OperationalError
  | DataError, DataError => true
  | _, _ => false
  end.

Definition try_except {A} (m : M A) (e : exn) (h : M A) : M A :=
  fun c => match m c with
           | (Return a, c') => (Return a, c')
           | (Raise e', c') => if exn_eqb e' e then h c' else (Raise e', c')
           end.

Declare Scope handler_scope.
Delimit Scope handler_scope with handler.
Notation "x <- m ;; k" := (bind m (fun x => k))
  (at level 61, m at next level, right associativity) : handler_scope.
Notation "m ;; k" := (bind m (fun _ => k))
  (at level 61, right associativity) : handler_scope.
Local Open Scope handler_scope.

Fixpoint for_each {A} (l : list A) (body : A -> M unit) : M unit :=
  match l with
  | [] => ret tt
  | x :: l' => body x ;; for_each l' body
  end.

(** ** Reading and writing the context *)

Definition get_session : M (option Z) := fun c => (Return (session c), c).

Definition set_session (s : option Z) : M unit :=
  fun c => (Return tt, mkCtx (db c) (uow c) s (g_user c) (flashes c) (outages c)).

Definition get_g_user : M (option User.t) := fun c => (Return (g_user c), c).

Definition set_g_user (u : option User.t) : M unit :=
  fun c => (Return tt, mkCtx (db c) (uow c) (session c) u (flashes c) (outages c)).

Definition flash (message category : string) : M unit :=
  fun c => (Return tt,
            mkCtx (db c) (uow c) (session c) (g_user c)
                  (flashes c ++ [(message, category)]) (outages c)).

(** A query reads the tables as the unit of work sees them. *)
Definition query {A} (q : Store -> A) : M A := fun c => (Return (q (uow c)), c).

(** A pending change of the unit of work. *)
Definition pending (f : Store -> Store) : M unit :=
  fun c => (Return tt,
            mkCtx (db c) (f (uow c)) (session c) (g_user c) (flashes c) (outages c)).

(** [session[CURR_USER_KEY]]: a [KeyError] when the key is absent. *)
Definition session_curr_user : M Z :=
  s <- get_session ;;
  match s with
  | Some uid => ret uid
  | None => raise KeyError
  end.

(** [g.user.id]: an [AttributeError] when [g.user] is [None]. *)
Definition g_user_id : M Z :=
  u <- get_g_user ;;
  match u with
  | Some u => ret (User.id u)
  | None => raise AttributeError
  end.

(** The f-string rendering of an integer id. *)
Definition str (z : Z) : string := NilZero.string_of_int (Z.to_int z).

(** ** Queries

    [Model.query...] expressions as functions of the tables.  A query
    without [order_by] returns the rows in table order. *)

Definition User_query_get (id : Z) (s : Store) : option User.t :=
  find (fun u => User.id u =? id) (users s).

Definition Message_query_get (id : Z) (s : Store) : option Message.t :=
  find (fun m => Message.id m =? id) (messages s).

Definition get_or_404 {A} (q : Store -> option A) : M A :=
  r <- query q ;;
  match r with
  | Some a => ret a
  | None => raise NotFound
  end.

(** [x in l] for a list of ids. *)
Definition in_ (x : Z) (l : list Z) : bool := existsb (Z.eqb x) l.

(** [.order_by(Message.timestamp.desc())]: newest first. *)
Fixpoint insert_desc (m : Message.t) (l : list Message.t) : list Message.t :=
  match l with
  | [] => [m]
  | m' :: l' =>
      if Message.timestamp m' <? Message.timestamp m
      then m :: m' :: l'
      else m' :: insert_desc m l'
  end.

Definition order_by_timestamp_desc (l : list Message.t) : list Message.t :=
  fold_right insert_desc [] l.

(** [.limit(n)]. *)
Definition limit {A} (n : nat) (l : list A) : list A := firstn n l.

(** [Likes.query.filter(Likes.user_id == uid).all()]. *)
Definition Likes_of_user (uid : Z) (s : Store) : list Likes.t :=
  filter (fun l => Likes.user_id l =? uid) (likes s).

(** [Likes.query.filter(Likes.message_id == mid).first()]. *)
Definition Likes_of_message_first (mid : Z) (s : Store) : option Likes.t :=
  find (fun l => Likes.message_id l =? mid) (likes s).

(** The loop
    [[
    list_of_liked_message_ids = []
    for like in likes:
        list_of_liked_message_ids.append(like.message_id)
    ]] *)
Fixpoint append_message_ids (likes : list Likes.t) (acc : list Z) : list Z :=
  match likes with
  | [] => acc
  | like :: rest => append_message_ids rest (acc ++ [Likes.message_id like])
  end.

Fixpoint append_user_ids (us : list User.t) (acc : list Z) : list Z :=
  match us with
  | [] => acc
  | user :: rest => append_user_ids rest (acc ++ [User.id user])
  end.

(** Modelled from the spec: the [following] relationship of [models.py],
    [following_of(user_id)]: the users at the followee end of the edges whose
    follower is this user, in edge order. *)
Fixpoint users_by_ids (ids : list Z) (s : Store) : list User.t :=
  match ids with
  | [] => []
  | i :: rest =>
      match User_query_get i s with
      | Some u => u :: users_by_ids rest s
      | None => users_by_ids rest s
      end
  end.

Definition following (u : User.t) (s : Store) : list User.t :=
  users_by_ids
    (map Follows.followee_id
         (filter (fun e => Follows.follower_id e =? User.id u) (follows s)))
    s.

(** ** Changes of the unit of work *)

Definition likes_eqb (a b : Likes.t) : bool :=
  (Likes.user_id a =? Likes.user_id b) && (Likes.message_id a =? Likes.message_id b).

Definition follows_eqb (a b : Follows.t) : bool :=
  (Follows.follower_id a =? Follows.follower_id b)
  && (Follows.followee_id a =? Follows.followee_id b).

(** One more than the highest id of the table, an id no row has.  The
    store's sequence may hand out any id it has not given out before; where
    the id matters a handler takes it as [new_id]. *)
Definition fresh_id (ids : list Z) : Z := 1 + fold_right Z.max 0 ids.

Definition add_like_row (l : Likes.t) (s : Store) : Store :=
  mkStore (users s) (messages s) (follows s) (likes s ++ [l]).

Definition delete_like_row (l : Likes.t) (s : Store) : Store :=
  mkStore (users s) (messages s) (follows s)
          (filter (fun l' => negb (likes_eqb l' l)) (likes s)).

Definition add_message_row (m : Message.t) (s : Store) : Store :=
  mkStore (users s) (messages s ++ [m]) (follows s) (likes s).

(** Modelled from the spec: the store has foreign keys that cascade or
    restrict; [models.py] is taken to cascade, so an edge does not outlive
    one of its two ends.  A row is deleted by its primary key. *)
Definition delete_message_row (m : Message.t) (s : Store) : Store :=
  mkStore (users s)
          (filter (fun m' => negb (Message.id m' =? Message.id m)) (messages s))
          (follows s)
          (filter (fun l => negb (Likes.message_id l =? Message.id m)) (likes s)).

(** The unit of work after the loop
    [[
    for message in messages_to_delete:
        db.session.delete(message)
    ]] *)
Definition delete_message_rows (l : list Message.t) (s : Store) : Store :=
  fold_left (fun s m => delete_message_row m s) l s.

Definition add_user_row (u : User.t) (s : Store) : Store :=
  mkStore (users s ++ [u]) (messages s) (follows s) (likes s).

(** Modelled from the spec: the edges of a deleted user go with it, as for
    a deleted message.  The messages of the user are left to the handler. *)
Definition delete_user_row (u : User.t) (s : Store) : Store :=
  mkStore (filter (fun u' => negb (User.id u' =? User.id u)) (users s))
          (messages s)
          (filter (fun e => negb (Follows.follower_id e =? User.id u)
                            && negb (Follows.followee_id e =? User.id u))
                  (follows s))
          (filter (fun l => negb (Likes.user_id l =? User.id u)) (likes s)).

Definition update_user_row (u : User.t) (s : Store) : Store :=
  mkStore (map (fun u' => if User.id u' =? User.id u then u else u') (users s))
          (messages s) (follows s) (likes s).

Definition add_follow_row (e : Follows.t) (s : Store) : Store :=
  mkStore (users s) (messages s) (follows s ++ [e]) (likes s).

(** [g.user.following.append(followed_user)]: the relationship holds a user
    once, so appending a user who is followed already writes no second
    edge. *)
Definition append_following (e : Follows.t) (s : Store) : Store :=
  if existsb (follows_eqb e) (follows s) then s else add_follow_row e s.

Definition delete_follow_row (e : Follows.t) (s : Store) : Store :=
  mkStore (users s) (messages s)
          (filter (fun e' => negb (follows_eqb e' e)) (follows s))
          (likes s).

(** ** Commit *)

(** No element of the list occurs twice. *)
Fixpoint distinct {A} (eqb : A -> A -> bool) (l : list A) : bool :=
  match l with
  | [] => true
  | x :: l' => negb (existsb (eqb x) l') && distinct eqb l'
  end.

Definition user_ids (s : Store) : list Z := map User.id (users s).

Definition message_ids (s : Store) : list Z := map Message.id (messages s).

(** Modelled from the spec: the constraints of the tables of [models.py],
    kept by the store.  Ids are primary keys; username and email are unique;
    a follow edge and a like edge are unique pairs; every message has an
    owning user and every edge has its two ends. *)
Definition constraints (s : Store) : bool :=
  distinct Z.eqb (user_ids s)
  && distinct String.eqb (map User.username (users s))
  && distinct String.eqb (map User.email (users s))
  && distinct Z.eqb (message_ids s)
  && forallb (fun m => in_ (Message.user_id m) (user_ids s)) (messages s)
  && distinct follows_eqb (follows s)
  && forallb (fun e => in_ (Follows.follower_id e) (user_ids s)
                       && in_ (Follows.followee_id e) (user_ids s))
             (follows s)
  && distinct likes_eqb (likes s)
  && forallb (fun l => in_ (Likes.user_id l) (user_ids s)
                       && in_ (Likes.message_id l) (message_ids s))
             (likes s).

(** [db.session.commit()].  The pending changes become the committed tables
    in one step, or none of them does: the store refuses the commit when it
    is out ([OperationalError]) or when a unique constraint is broken
    ([IntegrityError]). *)
Definition commit : M unit :=
  fun c =>
    match outages c with
    | false :: rest =>
        (Raise OperationalError,
         mkCtx (db c) (uow c) (session c) (g_user c) (flashes c) rest)
    | _ =>
        if constraints (uow c)
        then (Return tt,
              mkCtx (uow c) (uow c) (session c) (g_user c) (flashes c)
                    (tl (outages c)))
        else (Raise IntegrityError,
              mkCtx (db c) (uow c) (session c) (g_user c) (flashes c)
                    (tl (outages c)))
    end.

(** ** Forms and responses

    A form carries the submitted fields a handler reads with
    [form.<field>.data]. *)

Module UserAddForm.
Record t := mk {
  username : string;
  password : string;
  email : string;
  image_url : string
}.
End UserAddForm.

Module LoginForm.
Record t := mk {
  username : string;
  password : string
}.
End LoginForm.

Module MessageForm.
Record t := mk { text : string }.
End MessageForm.

Module ProfileEditForm.
Record t := mk {
  username : string;
  email : string;
  image_url : string;
  header_image_url : string;
  location : string;
  bio : string;
  password : string
}.
End ProfileEditForm.

(** The keyword arguments handed to a template. *)
Inductive Kwarg :=
| kw_user (user : User.t)
| kw_messages (messages : list Message.t)
| kw_num_likes (num_likes : nat)
| kw_liked_messages (liked_messages : list Message.t)
| kw_likes_ids (likes_ids : list Z)
| kw_form (form : UserAddForm.t).

Inductive Response :=
| redirect (location : string)
| render_template (template : string) (kwargs : list Kwarg).

(** ** Session helpers *)

(** Runs before every request. *)
Definition add_user_to_g : M unit :=
  s <- get_session ;;
  match s with
  | Some uid => u <- query (User_query_get uid) ;; set_g_user u
  | None => set_g_user None
  end.

Definition do_login (user : User.t) : M unit :=
  set_session (Some (User.id user)).

Definition do_logout : M unit :=
  s <- get_session ;;
  match s with
  | Some _ => set_session None
  | None => ret tt
  end.

(** The two lines every guarded handler starts with:
    [[
    flash("Access unauthorized.", "danger")
    return redirect("/")
    ]] *)
Definition unauthorized : M Response :=
  flash "Access unauthorized." "danger" ;;
  ret (redirect "/").

(** ** General user routes *)

Definition users_show (user_id : Z) : M Response :=
  user <- get_or_404 (User_query_get user_id) ;;
  messages <- query (fun s =>
    limit 100 (order_by_timestamp_desc
      (filter (fun m => Message.user_id m =? user_id) (messages s)))) ;;
  uid <- g_user_id ;;
  likes <- query (Likes_of_user uid) ;;
  let list_of_liked_message_ids := append_message_ids likes [] in
  let num_likes := List.length list_of_liked_message_ids in
  ret (render_template "users/show.html"
         [kw_user user; kw_messages messages; kw_num_likes num_likes]).

Definition user_likes (user_id : Z) : M Response :=
  g <- get_g_user ;;
  match g with
  | None => unauthorized
  | Some _ =>
      user <- get_or_404 (User_query_get user_id) ;;
      uid <- g_user_id ;;
      likes <- query (Likes_of_user uid) ;;
      let list_of_liked_message_ids := append_message_ids likes [] in
      liked_messages <- query (fun s =>
        order_by_timestamp_desc
          (filter (fun m => in_ (Message.id m) list_of_liked_message_ids)
                  (messages s))) ;;
      ret (render_template "users/likes.html"
             [kw_user user; kw_liked_messages liked_messages])
  end.

Definition add_follow (follow_id : Z) : M Response :=
  g <- get_g_user ;;
  match g with
  | None => unauthorized
  | Some me =>
      followed_user <- get_or_404 (User_query_get follow_id) ;;
      pending (append_following
                 (Follows.mk (User.id me) (User.id followed_user))) ;;
      commit ;;
      uid <- g_user_id ;;
      ret (redirect ("/users/" ++ str uid ++ "/following"))
  end.

(** [g.user.following.remove(followed_user)] is [list.remove]: a
    [ValueError] when the user is not in the list. *)
Definition stop_following (follow_id : Z) : M Response :=
  g <- get_g_user ;;
  match g with
  | None => unauthorized
  | Some me =>
      followed_user <- query (User_query_get follow_id) ;;
      following_of_me <- query (following me) ;;
      match followed_user with
      | Some fu =>
          if existsb (fun u => User.id u =? User.id fu) following_of_me
          then pending (delete_follow_row (Follows.mk (User.id me) (User.id fu)))
          else raise ValueError
      | None => raise ValueError
      end ;;
      commit ;;
      uid <- g_user_id ;;
      ret (redirect ("/users/" ++ str uid ++ "/following"))
  end.

Definition delete_user : M Response :=
  g <- get_g_user ;;
  match g with
  | None => unauthorized
  | Some curr_user =>
      messages_to_delete <- query (fun s =>
        filter (fun m => Message.user_id m =? User.id curr_user) (messages s)) ;;
      for_each messages_to_delete
               (fun message => pending (delete_message_row message)) ;;
      commit ;;
      pending (delete_user_row curr_user) ;;
      commit ;;
      do_logout ;;
      ret (redirect "/signup")
  end.

(** ** Messages routes

    [now] is the clock reading that becomes the timestamp of a new row. *)

(** Modelled from the spec: the text of a message is length-bounded; the
    column of [models.py] is taken to hold 140 characters. *)
Definition max_text_length : nat := 140.

(** Modelled from the spec: the store refuses the row of a message whose
    text is over the bound when the row is written, with a [DataError]. *)
Definition store_accepts_text (msg : Message.t) : M unit :=
  if (String.length (Message.text msg) <=? max_text_length)%nat
  then ret tt
  else raise DataError.

(** The id of a new row is the store's to give: [new_id] is the value the
    sequence of the messages table hands out for this insert. *)
Definition messages_add_at (new_id : Z) (form : MessageForm.t) (now : Z)
  : M Response :=
  g <- get_g_user ;;
  match g with
  | None => unauthorized
  | Some me =>
      let msg := Message.mk new_id (MessageForm.text form) now (User.id me) in
      pending (add_message_row msg) ;;
      store_accepts_text msg ;;
      commit ;;
      uid <- g_user_id ;;
      ret (redirect ("/users/" ++ str uid))
  end.

(** [messages_add] when the sequence hands out the id after the highest one in
    the table. *)
Definition messages_add (form : MessageForm.t) (now : Z) : M Response :=
  g <- get_g_user ;;
  match g with
  | None => unauthorized
  | Some me =>
      msg <- query (fun s =>
        Message.mk (fresh_id (message_ids s)) (MessageForm.text form)
                   now (User.id me)) ;;
      pending (add_message_row msg) ;;
      store_accepts_text msg ;;
      commit ;;
      uid <- g_user_id ;;
      ret (redirect ("/users/" ++ str uid))
  end.

Definition messages_destroy (message_id : Z) : M Response :=
  g <- get_g_user ;;
  match g with
  | None => unauthorized
  | Some _ =>
      msg <- query (Message_query_get message_id) ;;
      match msg with
      | Some m => pending (delete_message_row m)
      | None => raise UnmappedInstanceError
      end ;;
      commit ;;
      uid <- g_user_id ;;
      ret (redirect ("/users/" ++ str uid))
  end.

(** ** Homepage *)

Definition homepage : M Response :=
  g <- get_g_user ;;
  match g with
  | Some me =>
      following_of_me <- query (following me) ;;
      let list_of_following_ids := append_user_ids following_of_me [] in
      messages <- query (fun s =>
        limit 100 (order_by_timestamp_desc
          (filter (fun m => in_ (Message.user_id m) list_of_following_ids)
                  (messages s)))) ;;
      uid <- g_user_id ;;
      likes <- query (Likes_of_user uid) ;;
      let list_of_liked_message_ids := append_message_ids likes [] in
      let num_likes := List.length list_of_liked_message_ids in
      ret (render_template "home.html"
             [kw_messages messages; kw_likes_ids list_of_liked_message_ids;
              kw_num_likes num_likes])
  | None => ret (render_template "home-anon.html" [])
  end.

Definition logout : M Response :=
  uid <- session_curr_user ;;
  user <- get_or_404 (User_query_get uid) ;;
  do_logout ;;
  flash ("Goodbye, " ++ User.username user ++ "!") "info" ;;
  ret (redirect "/login").

(** ** Likes *)

Definition add_like (message_id : Z) : M Response :=
  likes <- query likes ;;
  let list_of_liked_message_ids := append_message_ids likes [] in
  if in_ message_id list_of_liked_message_ids
  then
    unlike <- query (Likes_of_message_first message_id) ;;
    match unlike with
    | Some l => pending (delete_like_row l)
    | None => raise UnmappedInstanceError
    end ;;
    commit ;;
    uid <- g_user_id ;;
    ret (redirect ("/users/" ++ str uid ++ "/likes"))
  else
    uid <- session_curr_user ;;
    user <- get_or_404 (User_query_get uid) ;;
    let new_like := Likes.mk (User.id user) message_id in
    pending (add_like_row new_like) ;;
    commit ;;
    ret (redirect "/").

(** ** Signup, login and profile edit

    The password hash and the column defaults belong to [models.py]; the
    handlers are stated for any of them. *)

Section Credentials.

Variable generate_password_hash : string -> string.
Variable check_password_hash : string -> string -> bool.
Variable default_image_url : string.
Variable default_header_image_url : string.

(** Modelled from the spec: [User.signup] of [models.py], which creates a
    user with a hashed password and adds it to the unit of work; a
    collision on username or email is refused by the store. *)
Definition User_signup (username password email image_url : string)
  : M User.t :=
  user <- query (fun s =>
    User.mk (fresh_id (user_ids s)) username email image_url
            default_header_image_url "" ""
            (generate_password_hash password)) ;;
  pending (add_user_row user) ;;
  ret user.

(** [User.signup] when the sequence of the users table hands out
    [new_id]. *)
Definition User_signup_at (new_id : Z)
                          (username password email image_url : string)
  : M User.t :=
  let user := User.mk new_id username email image_url
                      default_header_image_url "" ""
                      (generate_password_hash password) in
  pending (add_user_row user) ;;
  ret user.

(** Modelled from the spec: [User.authenticate] of [models.py], which
    returns the user with this username if the hash verifies, and no match
    otherwise. *)
Definition User_authenticate (username password : string)
  : M (option User.t) :=
  query (fun s =>
    match find (fun u => String.eqb (User.username u) username) (users s) with
    | Some u =>
        if check_password_hash (User.password u) password
        then Some u else None
    | None => None
    end).

(** [a or b] on strings. *)
Definition or_ (a b : string) : string :=
  if String.eqb a "" then b else a.

(** The view returns nothing after the last [flash], which Flask refuses
    with a [TypeError]. *)
Definition login (form : LoginForm.t) : M Response :=
  user <- User_authenticate (LoginForm.username form)
                            (LoginForm.password form) ;;
  match user with
  | Some user =>
      do_login user ;;
      flash ("Hello, " ++ User.username user ++ "!") "success" ;;
      ret (redirect "/")
  | None =>
      flash "Invalid credentials." "danger" ;;
      raise TypeError
  end.

(** The [try] block yields the new user; the [except] block returns from
    the handler with the form. *)
Definition signup (form : UserAddForm.t) : M Response :=
  r <- try_except
         (user <- User_signup (UserAddForm.username form)
                              (UserAddForm.password form)
                              (UserAddForm.email form)
                              (or_ (UserAddForm.image_url form)
                                   default_image_url) ;;
          commit ;;
          ret (inl user))
         IntegrityError
         (flash "Username already taken" "danger" ;;
          ret (inr (render_template "users/signup.html" [kw_form form]))) ;;
  match r with
  | inr response => ret response
  | inl user =>
      do_login user ;;
      ret (redirect "/")
  end.

(** [signup] when the sequence of the users table hands out [new_id]. *)
Definition signup_at (new_id : Z) (form : UserAddForm.t) : M Response :=
  r <- try_except
         (user <- User_signup_at new_id
                                 (UserAddForm.username form)
                                 (UserAddForm.password form)
                                 (UserAddForm.email form)
                                 (or_ (UserAddForm.image_url form)
                                      default_image_url) ;;
          commit ;;
          ret (inl user))
         IntegrityError
         (flash "Username already taken" "danger" ;;
          ret (inr (render_template "users/signup.html" [kw_form form]))) ;;
  match r with
  | inr response => ret response
  | inl user =>
      do_login user ;;
      ret (redirect "/")
  end.

Definition update_profile (form : ProfileEditForm.t) : M Response :=
  uid <- session_curr_user ;;
  user <- get_or_404 (User_query_get uid) ;;
  let old_user_name := User.username user in
  confirmed_user <- User_authenticate old_user_name
                                      (ProfileEditForm.password form) ;;
  match confirmed_user with
  | Some confirmed_user =>
      pending (update_user_row
        (User.mk (User.id confirmed_user)
                 (ProfileEditForm.username form)
                 (ProfileEditForm.email form)
                 (ProfileEditForm.image_url form)
                 (ProfileEditForm.header_image_url form)
                 (ProfileEditForm.bio form)
                 (ProfileEditForm.location form)
                 (User.password confirmed_user))) ;;
      commit ;;
      ret (redirect ("/users/" ++ str (User.id confirmed_user)))
  | None =>
      flash "Wrong password !!" "danger" ;;
      ret (redirect "/")
  end.

End Credentials.

(** ** A request

    A request starts from the committed tables and the session cookie, with
    an empty unit of work; [add_user_to_g] runs before the handler. *)

Definition open_request (store : Store) (cookie : option Z)
                        (outs : list bool) : Ctx :=
  mkCtx store store cookie None [] outs.

Definition request (view : M Response) (store : Store) (cookie : option Z)
                   (outs : list bool) : Outcome Response * Ctx :=
  (add_user_to_g ;; view) (open_request store cookie outs).

(** The [Unauthorized] outcome: the notice is flashed and the client is sent
    to the home page. *)
Definition Unauthorized (r : Outcome Response * Ctx) : Prop :=
  fst r = Return (redirect "/")
  /\ In ("Access unauthorized.", "danger") (flashes (snd r)).

(** The tables are as they were before the request. *)
Definition store_unchanged (store : Store) (r : Outcome Response * Ctx) : Prop :=
  db (snd r) = store.

(** ** The other routes *)

Definition show_following (user_id : Z) : M Response :=
  g <- get_g_user ;;
  match g with
  | None => unauthorized
  | Some _ =>
      user <- get_or_404 (User_query_get user_id) ;;
      ret (render_template "users/following.html" [kw_user user])
  end.

Definition users_followers (user_id : Z) : M Response :=
  g <- get_g_user ;;
  match g with
  | None => unauthorized
  | Some _ =>
      user <- get_or_404 (User_query_get user_id) ;;
      ret (render_template "users/followers.html" [kw_user user])
  end.

(** The two routes that render a template with keyword arguments of their
    own: [users/index.html] with [users], [messages/show.html] with
    [message]. *)
Inductive Page :=
| users_index_html (users : list User.t)
| messages_show_html (message : option Message.t).

Section Listing.

(** [like value pattern]: the LIKE operator of the store. *)
Variable like : string -> string -> bool.

(** [search] is [request.args.get('q')]; [not search] holds for [None] and
    for the empty string. *)
Definition list_users (search : option string) : M Page :=
  match search with
  | None =>
      users <- query users ;;
      ret (users_index_html users)
  | Some q =>
      if String.eqb q ""
      then
        users <- query users ;;
        ret (users_index_html users)
      else
        users <- query (fun s =>
          filter (fun u => like (User.username u) ("%" ++ q ++ "%"))
                 (users s)) ;;
        ret (users_index_html users)
  end.

End Listing.

Definition messages_show (message_id : Z) : M Page :=
  msg <- query (Message_query_get message_id) ;;
  ret (messages_show_html msg).

(** A request to a handler of any result type. *)
Definition serve {A} (view : M A) (store : Store) (cookie : option Z)
                 (outs : list bool) : Outcome A * Ctx :=
  (add_user_to_g ;; view) (open_request store cookie outs).

(** ** Response headers

    The headers of a response are werkzeug's [Headers]: a list of pairs
    whose keys compare without regard to case.  [headers[key] = value]
    replaces the first pair with this key, drops the later ones, and
    appends the pair when there is none. *)

Definition lower_ascii (c : Ascii.ascii) : Ascii.ascii :=
  let n := Ascii.nat_of_ascii c in
  if ((65 <=? n) && (n <=? 90))%nat then Ascii.ascii_of_nat (n + 32) else c.

Fixpoint lower (s : string) : string :=
  match s with
  | EmptyString => EmptyString
  | String c s' => String (lower_ascii c) (lower s')
  end.

Definition key_eqb (a b : string) : bool := String.eqb (lower a) (lower b).

Definition Headers := list (string * string).

Fixpoint headers_set (key value : string) (h : Headers) : Headers :=
  match h with
  | [] => [(key, value)]
  | (old_key, old_value) :: rest =>
      if key_eqb old_key key
      then (key, value)
             :: filter (fun t => negb (key_eqb (fst t) key)) rest
      else (old_key, old_value) :: headers_set key value rest
  end.

(** [headers.get(key)]: the value of the first pair with this key. *)
Fixpoint headers_get (key : string) (h : Headers) : option string :=
  match h with
  | [] => None
  | (k, v) :: rest => if key_eqb k key then Some v else headers_get key rest
  end.

(** Runs after every request, on the headers of the response. *)
Definition add_header (req : Headers) : Headers :=
  let req := headers_set "Cache-Control" "no-cache, no-store, must-revalidate" req in
  let req := headers_set "Pragma" "no-cache" req in
  let req := headers_set "Expires" "0" req in
  let req := headers_set "Cache-Control" "public, max-age=0" req in
  req.

(** The row [update_profile] writes for the confirmed user: the six
    submitted fields, with the id and the password hash of the user. *)
Definition edited (me : User.t) (form : ProfileEditForm.t) : User.t :=
  User.mk (User.id me)
          (ProfileEditForm.username form) (ProfileEditForm.email form)
          (ProfileEditForm.image_url form)
          (ProfileEditForm.header_image_url form)
          (ProfileEditForm.bio form) (ProfileEditForm.location form)
          (User.password me).

(** What a rendered profile shows of the likes. *)
Definition rendered_num_likes (r : Outcome Response) : option nat :=
  match r with
  | Return (render_template _ [kw_user _; kw_messages _; kw_num_likes n]) => Some n
  | _ => None
  end.

Definition rendered_liked_messages (r : Outcome Response)
  : option (list Message.t) :=
  match r with
  | Return (render_template _ [kw_user _; kw_liked_messages l]) => Some l
  | _ => None
  end.

(** [likes_of_user(user_id)] of the like index: the ids of the messages a
    user likes. *)
Definition likes_of_user (uid : Z) (s : Store) : list Z :=
  map Likes.message_id (Likes_of_user uid s).

(** Newest first. *)
Definition newer_or_equal (a b : Message.t) : Prop :=
  Message.timestamp a >= Message.timestamp b.

Definition newer (a b : Message.t) : Prop :=
  Message.timestamp a > Message.timestamp b.

(** ** A small instance: alice wrote message 7, bob likes it *)

Definition alice : User.t := User.mk 1 "alice" "alice@example.com" "" "" "" "" "h1".
Definition bob : User.t := User.mk 2 "bob" "bob@example.com" "" "" "" "" "h2".
Definition carol : User.t := User.mk 3 "carol" "carol@example.com" "" "" "" "" "h3".

Definition hello : Message.t := Message.mk 7 "hello world" 100 1.
Definition again : Message.t := Message.mk 8 "hello again" 200 1.
Definition reply : Message.t := Message.mk 9 "hi alice" 150 2.

Definition bob_likes_hello : Store :=
  mkStore [alice; bob] [hello] [] [Likes.mk 2 7].

Definition carol_follows_both : Store :=
  mkStore [alice; bob; carol] [hello; again; reply]
          [Follows.mk 3 1; Follows.mk 3 2] [Likes.mk 2 7; Likes.mk 3 8].

Definition bob_likes_nothing : Store :=
  mkStore [alice; bob; carol] [hello; again; reply]
          [Follows.mk 3 1; Follows.mk 3 2] [Likes.mk 3 8].

(** * Properties *)

(** ** The handler monad *)

Lemma add_user_to_g_open (store : Store) (cookie : option Z) (outs : list bool) :
  add_user_to_g (open_request store cookie outs)
  = (Return tt,
     mkCtx store store cookie
           (match cookie with
            | Some uid => User_query_get uid store
            | None => None
            end)
           [] outs).
Proof. destruct cookie; reflexivity. Qed.

Lemma request_eq (view : M Response) (store : Store) (cookie : option Z)
                 (outs : list bool) :
  request view store cookie outs
  = view (mkCtx store store cookie
                (match cookie with
                 | Some uid => User_query_get uid store
                 | None => None
                 end)
                [] outs).
Proof.
  unfold request, bind. rewrite add_user_to_g_open. reflexivity.
Qed.

Lemma find_some_id (id : Z) (l : list User.t) (u : User.t) :
  find (fun u => User.id u =? id) l = Some u -> User.id u = id /\ In u l.
Proof.
  intros H. apply find_some in H. destruct H as [Hin Heq].
  apply Z.eqb_eq in Heq. auto.
Qed.

Lemma in_spec (x : Z) (l : list Z) : in_ x l = true <-> In x l.
Proof.
  unfold in_. rewrite existsb_exists. split.
  - intros [y [Hy Hxy]]. apply Z.eqb_eq in Hxy. subst. exact Hy.
  - intros H. exists x. split; [exact H | apply Z.eqb_refl].
Qed.

Lemma append_message_ids_spec (l : list Likes.t) (acc : list Z) :
  append_message_ids l acc = (acc ++ map Likes.message_id l)%list.
Proof.
  revert acc. induction l as [|x l IH]; intros acc; simpl.
  - now rewrite app_nil_r.
  - rewrite IH. now rewrite <- app_assoc.
Qed.

Lemma append_user_ids_spec (l : list User.t) (acc : list Z) :
  append_user_ids l acc = (acc ++ map User.id l)%list.
Proof.
  revert acc. induction l as [|x l IH]; intros acc; simpl.
  - now rewrite app_nil_r.
  - rewrite IH. now rewrite <- app_assoc.
Qed.

(** ** Logging out *)

(** [do_logout] clears the session and does nothing more when there is
    none. *)
Lemma do_logout_clears (c : Ctx) :
  fst (do_logout c) = Return tt /\ session (snd (do_logout c)) = None.
Proof.
  unfold do_logout, bind, get_session. simpl.
  destruct (session c) eqn:E; simpl; auto.
Qed.

Lemma do_logout_idempotent (c : Ctx) :
  do_logout (snd (do_logout c)) = (Return tt, snd (do_logout c)).
Proof.
  unfold do_logout, bind, get_session. simpl.
  destruct (session c) eqn:E; simpl; [reflexivity | now rewrite E].
Qed.

(** C9.  The claim is that [GET /logout] without a session succeeds and
    leaves the session cleared.  The handler reads [session[CURR_USER_KEY]]
    before it reaches [do_logout]: without a session, on every store, the
    request ends in a [KeyError], the guard of [do_logout] is never
    reached, and no redirect to the login page is produced. *)
Theorem logout_without_session_raises (store : Store) (outs : list bool) :
  fst (request logout store None outs) = Raise KeyError
  /\ fst (request logout store None outs) <> Return (redirect "/login").
Proof.
  rewrite request_eq. split; [reflexivity | discriminate].
Qed.

(** ** Viewing a profile without a session *)

(** C8.  The claim is that an anonymous [GET /users/{id}] of an existing
    user renders the profile.  The handler evaluates [g.user.id] to build
    the likes query, with no check that [g.user] is set: for every existing
    user id the anonymous request ends in an [AttributeError] and renders
    nothing. *)
Theorem users_show_anonymous_raises
        (store : Store) (user_id : Z) (user : User.t) (outs : list bool) :
  User_query_get user_id store = Some user ->
  fst (request (users_show user_id) store None outs) = Raise AttributeError
  /\ rendered_num_likes (fst (request (users_show user_id) store None outs)) = None.
Proof.
  intros Hget. rewrite request_eq.
  unfold users_show, get_or_404, bind, query. simpl. rewrite Hget. simpl.
  split; reflexivity.
Qed.

Lemma users_show_anonymous_raises_witness :
  User_query_get 1 bob_likes_hello = Some alice
  /\ fst (request (users_show 1) bob_likes_hello None []) = Raise AttributeError
  /\ rendered_num_likes (fst (request (users_show 1) bob_likes_hello None []))
     = None.
Proof.
  split; [reflexivity |].
  apply (users_show_anonymous_raises bob_likes_hello 1 alice []). reflexivity.
Defined.

(** ** The like toggle *)

(** The check of [add_like] looks at the message id only. *)
Lemma add_like_check_ignores_user (message_id : Z) (s : Store) :
  in_ message_id (append_message_ids (likes s) []) = true
  <-> exists l, In l (likes s) /\ Likes.message_id l = message_id.
Proof.
  rewrite append_message_ids_spec, in_spec. simpl. rewrite in_map_iff.
  split; intros [l [H1 H2]]; exists l; auto.
Qed.

(** The insert branch is taken only when no like of the table has this
    message id, so the new edge repeats none. *)
Lemma add_like_inserts_no_duplicate (message_id uid : Z) (s : Store) :
  in_ message_id (append_message_ids (likes s) []) = false ->
  forall l, In l (likes s) -> likes_eqb l (Likes.mk uid message_id) = false.
Proof.
  intros Hcheck l Hl. unfold likes_eqb. simpl.
  destruct (Likes.message_id l =? message_id) eqn:E; [| apply andb_false_r].
  apply Z.eqb_eq in E.
  assert (H : in_ message_id (append_message_ids (likes s) []) = true).
  { apply add_like_check_ignores_user. exists l. auto. }
  congruence.
Qed.

(** C1.  The claim is that the like toggle is scoped to the pair (user,
    message): two calls in a row by the same user insert and then remove
    that user's edge.  On the store where bob likes message 7 and alice
    does not, alice's first call removes bob's edge and inserts nothing,
    and her second call inserts her edge: after the two calls alice likes
    the message, and bob no longer does. *)
Theorem add_like_twice_with_another_like :
  let first := request (add_like 7) bob_likes_hello (Some 1) [] in
  let second := request (add_like 7) (db (snd first)) (Some 1) [] in
  likes_of_user 1 bob_likes_hello = []
  /\ likes_of_user 2 bob_likes_hello = [7]
  /\ fst first = Return (redirect "/users/1/likes")
  /\ likes (db (snd first)) = []
  /\ fst second = Return (redirect "/")
  /\ likes (db (snd second)) = [Likes.mk 1 7]
  /\ likes_of_user 1 (db (snd second)) = [7]
  /\ likes_of_user 2 (db (snd second)) = [].
Proof.
  vm_compute. repeat split.
Qed.

(** ** Deleting a message *)

(** C2.  The claim is that a user who does not own a message cannot delete
    it.  The handler checks that someone is logged in and nothing else:
    bob's request to delete alice's message 7 is not refused, the message
    is gone from the store and bob is sent to his own profile. *)
Theorem messages_destroy_by_another_user :
  let r := request (messages_destroy 7) bob_likes_hello (Some 2) [] in
  Message_query_get 7 bob_likes_hello = Some hello
  /\ Message.user_id hello = 1
  /\ fst r = Return (redirect "/users/2")
  /\ ~ Unauthorized r
  /\ Message_query_get 7 (db (snd r)) = None
  /\ messages (db (snd r)) = [].
Proof.
  vm_compute. repeat split; try reflexivity.
  intros [H _]. discriminate H.
Qed.

(** ** Requests without a session *)

Lemma guarded_anonymous (view : Ctx -> Outcome Response * Ctx)
      (store : Store) (outs : list bool) :
  (forall c, g_user c = None -> view c = unauthorized c) ->
  Unauthorized (request view store None outs)
  /\ store_unchanged store (request view store None outs).
Proof.
  intros Hview. rewrite request_eq. rewrite Hview by reflexivity.
  unfold Unauthorized, store_unchanged. simpl. auto.
Qed.

(** C3.  The claim is that every mutating operation without a session ends
    in [Unauthorized] and leaves the tables as they were.  Five handlers
    start with the guard and do so on every store.  [update_profile] has no
    guard and ends in a [KeyError], with the tables unchanged.  [add_like]
    has no guard either: on the store where bob likes message 7 the
    anonymous request deletes bob's like, commits, and only then ends in an
    [AttributeError]. *)
Theorem anonymous_mutations :
  (forall store outs follow_id,
      Unauthorized (request (add_follow follow_id) store None outs)
      /\ store_unchanged store (request (add_follow follow_id) store None outs))
  /\ (forall store outs follow_id,
      Unauthorized (request (stop_following follow_id) store None outs)
      /\ store_unchanged store (request (stop_following follow_id) store None outs))
  /\ (forall store outs,
      Unauthorized (request delete_user store None outs)
      /\ store_unchanged store (request delete_user store None outs))
  /\ (forall store outs form now,
      Unauthorized (request (messages_add form now) store None outs)
      /\ store_unchanged store (request (messages_add form now) store None outs))
  /\ (forall store outs message_id,
      Unauthorized (request (messages_destroy message_id) store None outs)
      /\ store_unchanged store (request (messages_destroy message_id) store None outs))
  /\ (forall check_password_hash store outs form,
      fst (request (update_profile check_password_hash form) store None outs)
      = Raise KeyError
      /\ store_unchanged store
           (request (update_profile check_password_hash form) store None outs))
  /\ (let r := request (add_like 7) bob_likes_hello None [] in
      likes bob_likes_hello = [Likes.mk 2 7]
      /\ fst r = Raise AttributeError
      /\ ~ Unauthorized r
      /\ likes (db (snd r)) = []
      /\ ~ store_unchanged bob_likes_hello r).
Proof.
  repeat split;
    try (apply guarded_anonymous; intros c Hc;
         match goal with
         | |- ?h c = _ => unfold h
         | |- ?h _ c = _ => unfold h
         | |- ?h _ _ c = _ => unfold h
         end;
         unfold bind, get_g_user; simpl; rewrite Hc; reflexivity).
  - intros [H _]. vm_compute in H. discriminate H.
  - unfold store_unchanged. vm_compute. discriminate.
Qed.

(** ** Commit is all or nothing, one commit at a time *)

Lemma commit_refused_keeps_db (c : Ctx) (e : exn) :
  fst (commit c) = Raise e -> db (snd (commit c)) = db c.
Proof.
  unfold commit.
  destruct (outages c) as [|[|] rest]; simpl;
    destruct (constraints (uow c)); simpl; intros H;
    try discriminate H; reflexivity.
Qed.

Lemma commit_accepted_takes_uow (c : Ctx) :
  fst (commit c) = Return tt -> db (snd (commit c)) = uow c.
Proof.
  unfold commit.
  destruct (outages c) as [|[|] rest]; simpl;
    destruct (constraints (uow c)); simpl; intros H;
    try discriminate H; reflexivity.
Qed.

(** C6.  The claim is that a handler's writes are committed together or not
    at all, and that account deletion never leaves the messages deleted
    while the user record stays.  [delete_user] commits twice: once after
    the messages are deleted and once after the user is.  When the store
    takes the first commit and refuses the second, the request fails,
    alice's message is gone and alice is still in the users table. *)
Theorem delete_user_second_commit_refused :
  let r := request delete_user bob_likes_hello (Some 1) [true; false] in
  messages bob_likes_hello = [hello]
  /\ fst r = Raise OperationalError
  /\ messages (db (snd r)) = []
  /\ User_query_get 1 (db (snd r)) = Some alice
  /\ ~ store_unchanged bob_likes_hello r.
Proof.
  repeat split; try (vm_compute; reflexivity).
  unfold store_unchanged. vm_compute. discriminate.
Qed.

(** ** Ordering by timestamp *)

Lemma insert_desc_perm (m : Message.t) (l : list Message.t) :
  Permutation (insert_desc m l) (m :: l).
Proof.
  induction l as [|m' l IH]; simpl.
  - apply Permutation_refl.
  - destruct (Message.timestamp m' <? Message.timestamp m).
    + apply Permutation_refl.
    + eapply perm_trans; [apply perm_skip, IH | apply perm_swap].
Qed.

Lemma order_by_perm (l : list Message.t) :
  Permutation (order_by_timestamp_desc l) l.
Proof.
  induction l as [|m l IH]; simpl.
  - apply perm_nil.
  - eapply perm_trans; [apply insert_desc_perm | apply perm_skip, IH].
Qed.

Lemma order_by_In (m : Message.t) (l : list Message.t) :
  In m (order_by_timestamp_desc l) <-> In m l.
Proof.
  split; apply Permutation_in;
    [apply order_by_perm | apply Permutation_sym, order_by_perm].
Qed.

Lemma insert_desc_sorted (m : Message.t) (l : list Message.t) :
  StronglySorted newer_or_equal l ->
  StronglySorted newer_or_equal (insert_desc m l).
Proof.
  induction 1 as [|m' l Hs IH Hall]; simpl.
  - constructor; constructor.
  - destruct (Message.timestamp m' <? Message.timestamp m) eqn:E.
    + apply Z.ltb_lt in E. constructor.
      * constructor; assumption.
      * constructor.
        -- unfold newer_or_equal. lia.
        -- eapply Forall_impl; [| exact Hall].
           unfold newer_or_equal. intros a Ha. lia.
    + apply Z.ltb_ge in E. constructor; [exact IH |].
      eapply Permutation_Forall;
        [apply Permutation_sym, insert_desc_perm |].
      constructor; [unfold newer_or_equal; lia | exact Hall].
Qed.

Lemma order_by_sorted (l : list Message.t) :
  StronglySorted newer_or_equal (order_by_timestamp_desc l).
Proof.
  induction l as [|m l IH]; simpl.
  - constructor.
  - apply insert_desc_sorted, IH.
Qed.

Lemma limit_In {A : Type} (n : nat) (l : list A) (x : A) :
  In x (limit n l) -> In x l.
Proof.
  unfold limit. intros H. rewrite <- (firstn_skipn n l).
  apply in_or_app. left. exact H.
Qed.

Section SortedPrefix.

Context {A : Type} (R : A -> A -> Prop).

Lemma sorted_firstn (n : nat) (l : list A) :
  StronglySorted R l -> StronglySorted R (firstn n l).
Proof.
  intros H. revert n.
  induction H as [|a l Hs IH Hall]; intros [|n]; simpl; try constructor.
  - apply IH.
  - rewrite Forall_forall in *. intros x Hx.
    apply Hall. apply (limit_In n). exact Hx.
Qed.

Lemma sorted_app_inv (l1 l2 : list A) :
  StronglySorted R (l1 ++ l2) ->
  forall a b, In a l1 -> In b l2 -> R a b.
Proof.
  induction l1 as [|x l1 IH]; simpl; intros H a b Ha Hb.
  - contradiction.
  - inversion H as [|? ? Hs Hall]; subst.
    destruct Ha as [-> | Ha].
    + rewrite Forall_forall in Hall. apply Hall.
      apply in_or_app. right. exact Hb.
    + apply IH; assumption.
Qed.

End SortedPrefix.

(** Without ties the order is strict. *)
Lemma sorted_strict (l : list Message.t) :
  StronglySorted newer_or_equal l ->
  NoDup (map Message.timestamp l) ->
  StronglySorted newer l.
Proof.
  induction 1 as [|m l Hs IH Hall]; simpl; intros Hnd.
  - constructor.
  - inversion Hnd as [|? ? Hnotin Hnd']; subst.
    constructor; [apply IH, Hnd' |].
    rewrite Forall_forall in *. intros x Hx.
    specialize (Hall x Hx). unfold newer, newer_or_equal in *.
    assert (Message.timestamp x <> Message.timestamp m).
    { intros Heq. apply Hnotin. rewrite <- Heq. apply in_map. exact Hx. }
    lia.
Qed.

(** A message that does not make it into the first [n] is no newer than any
    that does. *)
Lemma limit_newest (n : nat) (l : list Message.t) (m : Message.t) :
  StronglySorted newer_or_equal l ->
  In m l ->
  In m (limit n l)
  \/ (List.length (limit n l) = n
      /\ forall m', In m' (limit n l) -> newer_or_equal m' m).
Proof.
  unfold limit. intros Hs Hin.
  rewrite <- (firstn_skipn n l) in Hin, Hs.
  apply in_app_or in Hin. destruct Hin as [Hin | Hin]; [left; exact Hin |].
  right. split.
  - apply firstn_length_le.
    destruct (Nat.le_gt_cases n (List.length l)) as [Hle | Hgt]; [exact Hle |].
    rewrite skipn_all2 in Hin by lia. contradiction.
  - intros m' Hm'. eapply sorted_app_inv; eassumption.
Qed.

(** ** The home timeline *)

(** The messages [homepage] hands to the template for a logged-in user. *)
Lemma homepage_logged_in
      (store : Store) (viewer : Z) (me : User.t) (outs : list bool) :
  User_query_get viewer store = Some me ->
  fst (request homepage store (Some viewer) outs)
  = Return
      (render_template "home.html"
         [kw_messages
            (limit 100
               (order_by_timestamp_desc
                  (filter (fun m => in_ (Message.user_id m)
                                        (map User.id (following me store)))
                          (messages store))));
          kw_likes_ids (map Likes.message_id (Likes_of_user (User.id me) store));
          kw_num_likes
            (List.length (map Likes.message_id (Likes_of_user (User.id me) store)))]).
Proof.
  intros Hme. rewrite request_eq, Hme.
  unfold homepage, bind, get_g_user, query, g_user_id. simpl.
  rewrite append_user_ids_spec, append_message_ids_spec. reflexivity.
Qed.

(** C4.  For a logged-in user who follows exactly A and B, the home page
    renders messages of the store that are owned by A or by B, none of the
    viewer's own unless the viewer is A or B, newest first (strictly so
    when no two of them carry the same timestamp), and at most 100 of
    them; a message of A or B that is left out is no newer than any message
    on a full page. *)
Theorem homepage_timeline
        (store : Store) (viewer : Z) (me : User.t) (A B : Z) (outs : list bool) :
  User_query_get viewer store = Some me ->
  (forall x, In x (map User.id (following me store)) <-> x = A \/ x = B) ->
  exists msgs ids n,
    fst (request homepage store (Some viewer) outs)
    = Return (render_template "home.html"
                [kw_messages msgs; kw_likes_ids ids; kw_num_likes n])
    /\ (forall m, In m msgs ->
                  In m (messages store)
                  /\ (Message.user_id m = A \/ Message.user_id m = B))
    /\ (viewer <> A -> viewer <> B ->
        forall m, In m msgs -> Message.user_id m <> viewer)
    /\ StronglySorted newer_or_equal msgs
    /\ (NoDup (map Message.timestamp msgs) -> StronglySorted newer msgs)
    /\ (List.length msgs <= 100)%nat
    /\ (forall m, In m (messages store) ->
                  Message.user_id m = A \/ Message.user_id m = B ->
                  In m msgs
                  \/ (List.length msgs = 100%nat
                      /\ forall m', In m' msgs -> newer_or_equal m' m)).
Proof.
  intros Hme Hfollowing.
  eexists _, _, _. split; [apply (homepage_logged_in _ _ _ _ Hme) |].
  set (owned := filter _ (messages store)).
  assert (Howned : forall m, In m owned <->
            In m (messages store)
            /\ (Message.user_id m = A \/ Message.user_id m = B)).
  { intros m. unfold owned. rewrite filter_In, in_spec, Hfollowing. tauto. }
  assert (Hsorted : StronglySorted newer_or_equal
                      (limit 100 (order_by_timestamp_desc owned))).
  { apply sorted_firstn, order_by_sorted. }
  assert (Hin : forall m, In m (limit 100 (order_by_timestamp_desc owned)) ->
                          In m (messages store)
                          /\ (Message.user_id m = A \/ Message.user_id m = B)).
  { intros m Hm. apply Howned, order_by_In, (limit_In 100). exact Hm. }
  repeat split.
  - apply Hin; assumption.
  - apply Hin; assumption.
  - intros HA HB m Hm Hv. apply Hin in Hm. destruct Hm as [_ [Ho | Ho]]; congruence.
  - exact Hsorted.
  - apply sorted_strict, Hsorted.
  - unfold limit. apply firstn_le_length.
  - intros m Hm Ho. apply limit_newest; [apply order_by_sorted |].
    apply order_by_In, Howned. auto.
Qed.

Lemma homepage_timeline_witness :
  exists msgs ids n,
    fst (request homepage carol_follows_both (Some 3) [])
    = Return (render_template "home.html"
                [kw_messages msgs; kw_likes_ids ids; kw_num_likes n])
    /\ (forall m, In m msgs ->
                  In m (messages carol_follows_both)
                  /\ (Message.user_id m = 1 \/ Message.user_id m = 2))
    /\ (3 <> 1 -> 3 <> 2 -> forall m, In m msgs -> Message.user_id m <> 3)
    /\ StronglySorted newer_or_equal msgs
    /\ (NoDup (map Message.timestamp msgs) -> StronglySorted newer msgs)
    /\ (List.length msgs <= 100)%nat
    /\ (forall m, In m (messages carol_follows_both) ->
                  Message.user_id m = 1 \/ Message.user_id m = 2 ->
                  In m msgs
                  \/ (List.length msgs = 100%nat
                      /\ forall m', In m' msgs -> newer_or_equal m' m)).
Proof.
  apply (homepage_timeline carol_follows_both 3 carol 1 2 []).
  - reflexivity.
  - simpl. intros x. split.
    + intros [H | [H | H]]; [left | right | contradiction]; symmetry; exact H.
    + intros [H | H]; [left | right; left]; symmetry; exact H.
Defined.

Example homepage_of_carol :
  fst (request homepage carol_follows_both (Some 3) [])
  = Return (render_template "home.html"
              [kw_messages [again; reply; hello]; kw_likes_ids [8];
               kw_num_likes 1]).
Proof. reflexivity. Qed.

(** ** Whose likes a profile shows *)

Lemma users_show_logged_in
      (store : Store) (v : Z) (viewer : User.t) (user_id : Z) (user : User.t)
      (outs : list bool) :
  User_query_get v store = Some viewer ->
  User_query_get user_id store = Some user ->
  rendered_num_likes (fst (request (users_show user_id) store (Some v) outs))
  = Some (List.length (likes_of_user v store)).
Proof.
  intros Hv Hu. rewrite request_eq, Hv.
  unfold users_show, get_or_404, bind, query, g_user_id, get_g_user. simpl.
  rewrite Hu. simpl. rewrite append_message_ids_spec. simpl.
  unfold User_query_get in Hv. apply find_some_id in Hv. destruct Hv as [-> _].
  reflexivity.
Qed.

Lemma user_likes_logged_in
      (store : Store) (v : Z) (viewer : User.t) (user_id : Z) (user : User.t)
      (outs : list bool) :
  User_query_get v store = Some viewer ->
  User_query_get user_id store = Some user ->
  rendered_liked_messages (fst (request (user_likes user_id) store (Some v) outs))
  = Some (order_by_timestamp_desc
            (filter (fun m => in_ (Message.id m) (likes_of_user v store))
                    (messages store))).
Proof.
  intros Hv Hu. rewrite request_eq, Hv.
  unfold user_likes, get_or_404, bind, query, g_user_id, get_g_user. simpl.
  rewrite Hu. simpl. rewrite append_message_ids_spec. simpl.
  unfold User_query_get in Hv. apply find_some_id in Hv. destruct Hv as [-> _].
  reflexivity.
Qed.

(** C10.  For a logged-in viewer [v], the like count of [GET /users/{id}]
    and the liked messages of [GET /users/{id}/likes] are those of [v],
    whatever existing id the path names and whatever anyone else likes.
    The count is the number of rows of the likes table whose user is [v];
    the list holds, newest first, the messages of the store that some row
    of the likes table pairs with [v].  Two stores with the same messages in
    which the rows of [v] are the same render the same count and the same
    list for any two existing path ids. *)
Theorem profile_likes_are_the_viewers
        (s1 s2 : Store) (v : Z) (viewer1 viewer2 : User.t)
        (id1 id2 : Z) (user1 user2 : User.t) (outs1 outs2 : list bool) :
  User_query_get v s1 = Some viewer1 ->
  User_query_get v s2 = Some viewer2 ->
  User_query_get id1 s1 = Some user1 ->
  User_query_get id2 s2 = Some user2 ->
  filter (fun l => Likes.user_id l =? v) (likes s1)
  = filter (fun l => Likes.user_id l =? v) (likes s2) ->
  messages s1 = messages s2 ->
  exists n liked,
    rendered_num_likes (fst (request (users_show id1) s1 (Some v) outs1)) = Some n
    /\ rendered_num_likes (fst (request (users_show id2) s2 (Some v) outs2)) = Some n
    /\ n = List.length (filter (fun l => Likes.user_id l =? v) (likes s1))
    /\ rendered_liked_messages
         (fst (request (user_likes id1) s1 (Some v) outs1)) = Some liked
    /\ rendered_liked_messages
         (fst (request (user_likes id2) s2 (Some v) outs2)) = Some liked
    /\ (forall m, In m liked <->
                  In m (messages s1)
                  /\ exists l, In l (likes s1)
                               /\ Likes.user_id l = v
                               /\ Likes.message_id l = Message.id m)
    /\ StronglySorted newer_or_equal liked.
Proof.
  intros Hv1 Hv2 Hu1 Hu2 Hlikes Hmsgs.
  assert (Hliked : forall m (s : Store),
            In (Message.id m)
               (map Likes.message_id
                    (filter (fun l => Likes.user_id l =? v) (likes s)))
            <-> exists l, In l (likes s)
                          /\ Likes.user_id l = v
                          /\ Likes.message_id l = Message.id m).
  { intros m s. rewrite in_map_iff. split.
    - intros [l [Hid Hl]]. apply filter_In in Hl. destruct Hl as [Hl Hu].
      apply Z.eqb_eq in Hu. exists l. auto.
    - intros [l [Hl [Hu Hid]]]. exists l. split; [exact Hid |].
      apply filter_In. split; [exact Hl | apply Z.eqb_eq, Hu]. }
  eexists _, _.
  split; [apply (users_show_logged_in _ _ _ _ _ _ Hv1 Hu1) |].
  split.
  { rewrite (users_show_logged_in _ _ _ _ _ _ Hv2 Hu2).
    unfold likes_of_user, Likes_of_user. rewrite Hlikes. reflexivity. }
  split.
  { unfold likes_of_user, Likes_of_user. apply length_map. }
  split; [apply (user_likes_logged_in _ _ _ _ _ _ Hv1 Hu1) |].
  split.
  { rewrite (user_likes_logged_in _ _ _ _ _ _ Hv2 Hu2).
    unfold likes_of_user, Likes_of_user. rewrite Hlikes, Hmsgs. reflexivity. }
  split; [| apply order_by_sorted].
  intros m. rewrite order_by_In, filter_In, in_spec.
  unfold likes_of_user, Likes_of_user. rewrite Hliked. tauto.
Qed.

(** In [carol_follows_both] carol likes message 8 and bob likes message 7;
    in [bob_likes_nothing] bob's like is gone.  Carol sees her own like on
    alice's profile in the first and on bob's profile in the second. *)
Lemma profile_likes_are_the_viewers_witness :
  exists n liked,
    rendered_num_likes
      (fst (request (users_show 1) carol_follows_both (Some 3) [])) = Some n
    /\ rendered_num_likes
         (fst (request (users_show 2) bob_likes_nothing (Some 3) [])) = Some n
    /\ n = List.length (filter (fun l => Likes.user_id l =? 3)
                               (likes carol_follows_both))
    /\ rendered_liked_messages
         (fst (request (user_likes 1) carol_follows_both (Some 3) [])) = Some liked
    /\ rendered_liked_messages
         (fst (request (user_likes 2) bob_likes_nothing (Some 3) [])) = Some liked
    /\ (forall m, In m liked <->
                  In m (messages carol_follows_both)
                  /\ exists l, In l (likes carol_follows_both)
                               /\ Likes.user_id l = 3
                               /\ Likes.message_id l = Message.id m)
    /\ StronglySorted newer_or_equal liked.
Proof.
  apply (profile_likes_are_the_viewers
           carol_follows_both bob_likes_nothing 3 carol carol 1 2 alice bob [] []);
    reflexivity.
Defined.

Example profile_of_alice_seen_by_carol :
  rendered_num_likes (fst (request (users_show 1) carol_follows_both (Some 3) []))
  = Some 1%nat
  /\ likes_of_user 1 carol_follows_both = []
  /\ rendered_liked_messages
       (fst (request (user_likes 1) carol_follows_both (Some 3) []))
     = Some [again].
Proof. repeat split. Qed.

(** ** Signing up with a taken username *)

Lemma distinct_app_dup {A} (eqb : A -> A -> bool) (l : list A) (x : A) :
  (forall a, eqb a a = true) ->
  In x l -> distinct eqb (l ++ [x]) = false.
Proof.
  intros Hrefl. induction l as [|a l IH]; simpl; intros Hin.
  - contradiction.
  - destruct Hin as [-> | Hin].
    + rewrite existsb_app. simpl. rewrite Hrefl, orb_true_r. reflexivity.
    + rewrite (IH Hin). apply andb_false_r.
Qed.

Lemma constraints_refuse_taken_username (u : User.t) (s : Store) :
  In (User.username u) (map User.username (users s)) ->
  constraints (add_user_row u s) = false.
Proof.
  intros Hin. unfold constraints. simpl users. rewrite (map_app User.username).
  simpl map at 2.
  rewrite (distinct_app_dup String.eqb _ _ String.eqb_refl Hin).
  rewrite andb_false_r. reflexivity.
Qed.

(** C7.  When the submitted username is that of a user of the store, and
    the store is up, [POST /signup] renders the signup form again with the
    notice, the session is what it was (none for an anonymous client) and
    the tables are what they were. *)
Theorem signup_duplicate_username
        (generate_password_hash : string -> string)
        (default_image_url default_header_image_url : string)
        (store : Store) (cookie : option Z) (outs : list bool)
        (form : UserAddForm.t) (existing : User.t) :
  In existing (users store) ->
  User.username existing = UserAddForm.username form ->
  hd true outs = true ->
  let r := request (signup generate_password_hash default_image_url
                           default_header_image_url form)
                   store cookie outs in
  fst r = Return (render_template "users/signup.html" [kw_form form])
  /\ flashes (snd r) = [("Username already taken", "danger")]
  /\ session (snd r) = cookie
  /\ users (db (snd r)) = users store
  /\ db (snd r) = store.
Proof.
  intros Hin Hname Hup r. subst r. rewrite request_eq.
  unfold signup, try_except, bind, User_signup, query, pending, commit. simpl.
  rewrite constraints_refuse_taken_username.
  2:{ simpl. rewrite <- Hname. apply in_map. exact Hin. }
  destruct outs as [|[|] rest]; simpl in *; try discriminate Hup;
    repeat split; reflexivity.
Qed.

Lemma signup_duplicate_username_witness :
  let r := request (signup (fun p => p) "/static/images/default-pic.png"
                           "/static/images/warbler-hero.jpg"
                           (UserAddForm.mk "alice" "secret" "other@example.com" ""))
                   bob_likes_hello None [] in
  fst r = Return (render_template "users/signup.html"
                    [kw_form (UserAddForm.mk "alice" "secret" "other@example.com" "")])
  /\ flashes (snd r) = [("Username already taken", "danger")]
  /\ session (snd r) = None
  /\ users (db (snd r)) = users bob_likes_hello
  /\ db (snd r) = bob_likes_hello.
Proof.
  apply (signup_duplicate_username
           (fun p => p) "/static/images/default-pic.png"
           "/static/images/warbler-hero.jpg" bob_likes_hello None []
           (UserAddForm.mk "alice" "secret" "other@example.com" "") alice).
  - simpl. left. reflexivity.
  - reflexivity.
  - reflexivity.
Defined.

(** A free username and email sign the user up and log them in. *)
Example signup_of_carol :
  let r := request (signup (fun p => p) "/static/images/default-pic.png"
                           "/static/images/warbler-hero.jpg"
                           (UserAddForm.mk "carol" "secret" "carol@example.com" ""))
                   bob_likes_hello None [] in
  fst r = Return (redirect "/")
  /\ session (snd r) = Some 3
  /\ map User.username (users (db (snd r))) = ["alice"; "bob"; "carol"].
Proof. repeat split. Qed.

(** ** Deleting an account *)

Lemma for_each_pending {A} (f : A -> Store -> Store) (l : list A) (c : Ctx) :
  for_each l (fun x => pending (f x)) c
  = (Return tt,
     mkCtx (db c) (fold_left (fun s x => f x s) l (uow c))
           (session c) (g_user c) (flashes c) (outages c)).
Proof.
  revert c. induction l as [|x l IH]; intros c; simpl.
  - destruct c; reflexivity.
  - unfold bind, pending at 1. rewrite IH. reflexivity.
Qed.

(** Rows that go do not break a constraint of the rows that stay. *)
Lemma existsb_filter_weaken {A} (g p : A -> bool) (l : list A) :
  existsb g (filter p l) = true -> existsb g l = true.
Proof.
  rewrite !existsb_exists. intros [x [Hx Hg]].
  apply filter_In in Hx. exists x. tauto.
Qed.

Lemma distinct_map_filter {A B} (eqb : B -> B -> bool) (f : A -> B)
      (p : A -> bool) (l : list A) :
  distinct eqb (map f l) = true -> distinct eqb (map f (filter p l)) = true.
Proof.
  induction l as [|a l IH]; simpl; [reflexivity |].
  rewrite andb_true_iff, negb_true_iff. intros [Hnot Hd].
  destruct (p a); simpl; [| apply IH, Hd].
  rewrite andb_true_iff, negb_true_iff. split; [| apply IH, Hd].
  destruct (existsb (eqb (f a)) (map f (filter p l))) eqn:E; [| reflexivity].
  rewrite existsb_exists in E. destruct E as [y [Hy Hxy]].
  apply in_map_iff in Hy. destruct Hy as [z [<- Hz]]. apply filter_In in Hz.
  rewrite <- Hnot. symmetry. apply existsb_exists.
  exists (f z). split; [apply in_map; tauto | exact Hxy].
Qed.

Lemma distinct_filter {A} (eqb : A -> A -> bool) (p : A -> bool) (l : list A) :
  distinct eqb l = true -> distinct eqb (filter p l) = true.
Proof.
  intros H. rewrite <- (map_id (filter p l)). apply distinct_map_filter.
  rewrite map_id. exact H.
Qed.

Lemma forallb_filter_weaken {A} (q q' p : A -> bool) (l : list A) :
  (forall x, In x l -> p x = true -> q x = true -> q' x = true) ->
  forallb q l = true -> forallb q' (filter p l) = true.
Proof.
  intros Himp. rewrite !forallb_forall. intros H x Hx.
  apply filter_In in Hx. destruct Hx as [Hx Hp]. auto.
Qed.

Lemma distinct_map_inj {A} (f : A -> Z) (l : list A) (a b : A) :
  distinct Z.eqb (map f l) = true ->
  In a l -> In b l -> f a = f b -> a = b.
Proof.
  induction l as [|x l IH]; simpl; [contradiction |].
  rewrite andb_true_iff, negb_true_iff. intros [Hnot Hd] Ha Hb Hab.
  assert (Hfresh : forall y, In y l -> f y <> f x).
  { intros y Hy Heq.
    assert (E : existsb (Z.eqb (f x)) (map f l) = true).
    { apply existsb_exists. exists (f y).
      split; [apply in_map, Hy | apply Z.eqb_eq; auto]. }
    congruence. }
  destruct Ha as [-> | Ha], Hb as [-> | Hb]; auto.
  - exfalso. apply (Hfresh b Hb). auto.
  - exfalso. apply (Hfresh a Ha). auto.
Qed.

Lemma in_ids_filter {A} (f : A -> Z) (k x : Z) (l : list A) :
  in_ x (map f l) = true -> x <> k ->
  in_ x (map f (filter (fun y => negb (f y =? k)) l)) = true.
Proof.
  rewrite !in_spec, !in_map_iff. intros [y [Hy Hin]] Hneq.
  exists y. split; [exact Hy |]. apply filter_In. split; [exact Hin |].
  apply negb_true_iff, Z.eqb_neq. congruence.
Qed.

Lemma find_filter_out {A} (f : A -> Z) (k : Z) (l : list A) :
  find (fun x => f x =? k) (filter (fun x => negb (f x =? k)) l) = None.
Proof.
  induction l as [|x l IH]; simpl; [reflexivity |].
  destruct (f x =? k) eqn:E; simpl; [exact IH |].
  rewrite E. exact IH.
Qed.

Lemma delete_message_row_constraints (m : Message.t) (s : Store) :
  constraints s = true -> constraints (delete_message_row m s) = true.
Proof.
  unfold constraints, user_ids, message_ids. simpl.
  rewrite !andb_true_iff.
  intros [[[[[[[[H1 H2] H3] H4] H5] H6] H7] H8] H9].
  repeat split; auto.
  - apply distinct_map_filter, H4.
  - eapply forallb_filter_weaken; [| exact H5]. auto.
  - apply distinct_filter, H8.
  - eapply forallb_filter_weaken; [| exact H9]. simpl.
    intros l _ Hp. rewrite !andb_true_iff. intros [Hu Hm]. split; [exact Hu |].
    apply in_ids_filter; [exact Hm |].
    apply negb_true_iff, Z.eqb_neq in Hp. exact Hp.
Qed.

Lemma delete_message_rows_constraints (l : list Message.t) (s : Store) :
  constraints s = true -> constraints (delete_message_rows l s) = true.
Proof.
  unfold delete_message_rows. revert s.
  induction l as [|m l IH]; intros s H; simpl; [exact H |].
  apply IH, delete_message_row_constraints, H.
Qed.

Lemma delete_message_rows_users (l : list Message.t) (s : Store) :
  users (delete_message_rows l s) = users s.
Proof.
  unfold delete_message_rows. revert s.
  induction l as [|m l IH]; intros s; simpl; [reflexivity |].
  rewrite IH. reflexivity.
Qed.

Lemma delete_message_rows_messages (l : list Message.t) (s : Store) (m : Message.t) :
  In m (messages (delete_message_rows l s))
  <-> In m (messages s) /\ ~ In (Message.id m) (map Message.id l).
Proof.
  unfold delete_message_rows. revert s.
  induction l as [|x l IH]; intros s; simpl; [tauto |].
  rewrite IH. simpl. rewrite filter_In, negb_true_iff, Z.eqb_neq.
  intuition congruence.
Qed.

(** With message ids as primary keys, the rows deleted by id are the rows
    of the owner. *)
Lemma delete_own_messages (uid : Z) (s : Store) (m : Message.t) :
  distinct Z.eqb (message_ids s) = true ->
  In m (messages
          (delete_message_rows
             (filter (fun m => Message.user_id m =? uid) (messages s)) s))
  <-> In m (messages s) /\ Message.user_id m <> uid.
Proof.
  intros Hpk. rewrite delete_message_rows_messages. split.
  - intros [Hin Hnot]. split; [exact Hin |]. intros Hown. apply Hnot.
    apply in_map, filter_In. split; [exact Hin | apply Z.eqb_eq, Hown].
  - intros [Hin Hown]. split; [exact Hin |]. intros Hid.
    apply in_map_iff in Hid. destruct Hid as [m' [Hid Hm']].
    apply filter_In in Hm'. destruct Hm' as [Hm' Hown'].
    apply Z.eqb_eq in Hown'.
    assert (m' = m) by (eapply distinct_map_inj; eauto).
    congruence.
Qed.

Lemma delete_user_row_constraints (u : User.t) (s : Store) :
  (forall m, In m (messages s) -> Message.user_id m <> User.id u) ->
  constraints s = true -> constraints (delete_user_row u s) = true.
Proof.
  intros Hnone. unfold constraints, user_ids, message_ids. simpl.
  rewrite !andb_true_iff.
  intros [[[[[[[[H1 H2] H3] H4] H5] H6] H7] H8] H9].
  repeat split; auto using distinct_map_filter, distinct_filter.
  - rewrite forallb_forall in *. intros m Hm.
    apply in_ids_filter; auto.
  - eapply forallb_filter_weaken; [| exact H7]. simpl.
    intros e _ Hp. rewrite !andb_true_iff in *.
    rewrite !negb_true_iff, !Z.eqb_neq in Hp.
    intros [Ha Hb]. split; apply in_ids_filter; tauto.
  - eapply forallb_filter_weaken; [| exact H9]. simpl.
    intros l _ Hp. rewrite !andb_true_iff.
    rewrite negb_true_iff, Z.eqb_neq in Hp.
    intros [Ha Hb]. split; [apply in_ids_filter |]; tauto.
Qed.

(** What [delete_user] leaves behind when the store takes both commits. *)
Lemma delete_user_logged_in (store : Store) (uid : Z) (me : User.t) :
  constraints store = true ->
  User_query_get uid store = Some me ->
  let own := filter (fun m => Message.user_id m =? uid) (messages store) in
  let after := delete_user_row me (delete_message_rows own store) in
  request delete_user store (Some uid) []
  = (Return (redirect "/signup"), mkCtx after after None (Some me) [] []).
Proof.
  intros Hc Hme own after.
  assert (Hid : User.id me = uid).
  { unfold User_query_get in Hme. apply find_some_id in Hme. tauto. }
  assert (Hpk : distinct Z.eqb (message_ids store) = true).
  { unfold constraints in Hc. rewrite !andb_true_iff in Hc. tauto. }
  assert (H1 : constraints (delete_message_rows own store) = true).
  { apply delete_message_rows_constraints, Hc. }
  assert (H2 : constraints after = true).
  { apply delete_user_row_constraints; [| exact H1].
    intros m Hm. rewrite Hid. apply (delete_own_messages uid store m Hpk) in Hm.
    tauto. }
  rewrite request_eq, Hme.
  unfold delete_user, bind, get_g_user, query. simpl. rewrite Hid.
  rewrite for_each_pending. simpl.
  unfold after, own, delete_message_rows in *.
  unfold commit at 1. simpl. rewrite H1.
  unfold pending, commit. simpl. rewrite H2. reflexivity.
Qed.

(** C5.  On a store that meets its constraints and takes the commits,
    [POST /users/delete] by a logged-in user leaves exactly the messages
    of the other users in the messages table (all of the user's own are
    gone, none of another owner is), a later lookup of the user's id is a
    [NotFound], and the session is cleared. *)
Theorem delete_user_removes_own_messages_only
        (store : Store) (uid : Z) (me : User.t) :
  constraints store = true ->
  User_query_get uid store = Some me ->
  let r := request delete_user store (Some uid) [] in
  fst r = Return (redirect "/signup")
  /\ (forall m, In m (messages (db (snd r)))
                <-> In m (messages store) /\ Message.user_id m <> uid)
  /\ (forall cookie outs,
         fst (get_or_404 (User_query_get uid)
                         (open_request (db (snd r)) cookie outs))
         = Raise NotFound)
  /\ User_query_get uid (db (snd r)) = None
  /\ session (snd r) = None.
Proof.
  intros Hc Hme r. subst r.
  rewrite (delete_user_logged_in store uid me Hc Hme). simpl.
  assert (Hid : User.id me = uid).
  { unfold User_query_get in Hme. apply find_some_id in Hme. tauto. }
  assert (Hgone : User_query_get uid
                    (delete_user_row me
                       (delete_message_rows
                          (filter (fun m => Message.user_id m =? uid)
                                  (messages store)) store)) = None).
  { unfold User_query_get. simpl. rewrite Hid. apply (find_filter_out User.id). }
  repeat split.
  - apply delete_own_messages in H; [tauto |].
    unfold constraints in Hc. rewrite !andb_true_iff in Hc. tauto.
  - apply delete_own_messages in H; [tauto |].
    unfold constraints in Hc. rewrite !andb_true_iff in Hc. tauto.
  - intros H. apply delete_own_messages; [| exact H].
    unfold constraints in Hc. rewrite !andb_true_iff in Hc. tauto.
  - intros cookie outs. unfold get_or_404, bind, query. simpl.
    rewrite Hgone. reflexivity.
  - exact Hgone.
Qed.

Lemma delete_user_removes_own_messages_only_witness :
  let r := request delete_user carol_follows_both (Some 1) [] in
  fst r = Return (redirect "/signup")
  /\ (forall m, In m (messages (db (snd r)))
                <-> In m (messages carol_follows_both) /\ Message.user_id m <> 1)
  /\ (forall cookie outs,
         fst (get_or_404 (User_query_get 1)
                         (open_request (db (snd r)) cookie outs))
         = Raise NotFound)
  /\ User_query_get 1 (db (snd r)) = None
  /\ session (snd r) = None.
Proof.
  apply (delete_user_removes_own_messages_only carol_follows_both 1 alice);
    reflexivity.
Defined.

Example delete_alice :
  let r := request delete_user carol_follows_both (Some 1) [] in
  messages (db (snd r)) = [reply]
  /\ map User.username (users (db (snd r))) = ["bob"; "carol"]
  /\ follows (db (snd r)) = [Follows.mk 3 2]
  /\ likes (db (snd r)) = [].
Proof. repeat split. Qed.

(** ** Who may delete a message, whose like is removed *)

(** Any logged-in user deletes any message: the owner is not looked at. *)
Lemma messages_destroy_any_owner
      (store : Store) (uid : Z) (me : User.t) (message_id : Z) (m : Message.t) :
  constraints store = true ->
  User_query_get uid store = Some me ->
  Message_query_get message_id store = Some m ->
  let r := request (messages_destroy message_id) store (Some uid) [] in
  fst r = Return (redirect ("/users/" ++ str uid))
  /\ Message_query_get message_id (db (snd r)) = None.
Proof.
  intros Hc Hme Hm r. subst r.
  assert (Hid : User.id me = uid).
  { unfold User_query_get in Hme. apply find_some_id in Hme. tauto. }
  assert (Hmid : Message.id m = message_id).
  { unfold Message_query_get in Hm. apply find_some in Hm.
    apply Z.eqb_eq. tauto. }
  rewrite request_eq, Hme.
  unfold messages_destroy, bind, get_g_user, query, g_user_id. simpl.
  rewrite Hm. unfold pending, commit. simpl.
  rewrite (delete_message_row_constraints m store Hc). simpl.
  rewrite Hid. split; [reflexivity |].
  unfold Message_query_get. simpl. rewrite Hmid.
  apply (find_filter_out Message.id).
Qed.

Lemma delete_like_row_constraints (l : Likes.t) (s : Store) :
  constraints s = true -> constraints (delete_like_row l s) = true.
Proof.
  unfold constraints, user_ids, message_ids. simpl.
  rewrite !andb_true_iff.
  intros [[[[[[[[H1 H2] H3] H4] H5] H6] H7] H8] H9].
  repeat split; auto using distinct_filter.
  eapply forallb_filter_weaken; [| exact H9]. auto.
Qed.

(** When the message has a like, [add_like] removes the first like of the
    message in the table, whoever made it, and adds none. *)
Lemma add_like_removes_first_like
      (store : Store) (uid : Z) (me : User.t) (message_id : Z) (l : Likes.t) :
  constraints store = true ->
  User_query_get uid store = Some me ->
  Likes_of_message_first message_id store = Some l ->
  let r := request (add_like message_id) store (Some uid) [] in
  fst r = Return (redirect ("/users/" ++ str uid ++ "/likes"))
  /\ db (snd r) = delete_like_row l store.
Proof.
  intros Hc Hme Hl r. subst r.
  assert (Hid : User.id me = uid).
  { unfold User_query_get in Hme. apply find_some_id in Hme. tauto. }
  assert (Hcheck : in_ message_id (append_message_ids (likes store) []) = true).
  { apply add_like_check_ignores_user. exists l.
    unfold Likes_of_message_first in Hl. apply find_some in Hl.
    rewrite Z.eqb_eq in Hl. exact Hl. }
  rewrite request_eq, Hme.
  unfold add_like, bind, query. simpl. rewrite Hcheck. simpl.
  rewrite Hl. unfold pending, commit, g_user_id, bind, get_g_user. simpl.
  rewrite (delete_like_row_constraints l store Hc). simpl.
  rewrite Hid. split; reflexivity.
Qed.

(** * Further properties of the handlers *)

(** ** Sessions *)

Lemma query_get_id (uid : Z) (s : Store) (me : User.t) :
  User_query_get uid s = Some me -> User.id me = uid /\ In me (users s).
Proof. unfold User_query_get. apply find_some_id. Qed.

(** X1.  [GET /logout] with a session that names a user of the store
    removes the session entry, flashes the goodbye with the username,
    redirects to the login page and leaves the tables alone. *)
Theorem logout_clears_session
        (store : Store) (uid : Z) (me : User.t) (outs : list bool) :
  User_query_get uid store = Some me ->
  let r := request logout store (Some uid) outs in
  fst r = Return (redirect "/login")
  /\ session (snd r) = None
  /\ flashes (snd r) = [("Goodbye, " ++ User.username me ++ "!", "info")]
  /\ db (snd r) = store.
Proof.
  intros Hme r. subst r. rewrite request_eq, Hme.
  unfold logout, session_curr_user, get_or_404, bind, get_session, query.
  simpl. rewrite Hme. simpl. repeat split.
Qed.

Lemma logout_clears_session_witness :
  let r := request logout bob_likes_hello (Some 2) [] in
  fst r = Return (redirect "/login")
  /\ session (snd r) = None
  /\ flashes (snd r) = [("Goodbye, " ++ User.username bob ++ "!", "info")]
  /\ db (snd r) = bob_likes_hello.
Proof.
  apply (logout_clears_session bob_likes_hello 2 bob []). reflexivity.
Defined.

(** X2.  With a session that names no user of the store (the account is
    gone), [GET /logout] is a 404 and the session entry stays: [do_logout]
    is not reached. *)
Theorem logout_stale_session_stays
        (store : Store) (uid : Z) (outs : list bool) :
  User_query_get uid store = None ->
  let r := request logout store (Some uid) outs in
  fst r = Raise NotFound
  /\ session (snd r) = Some uid
  /\ db (snd r) = store.
Proof.
  intros Hnone r. subst r. rewrite request_eq, Hnone.
  unfold logout, session_curr_user, get_or_404, bind, get_session, query.
  simpl. rewrite Hnone. simpl. repeat split.
Qed.

Lemma logout_stale_session_stays_witness :
  let r := request logout bob_likes_hello (Some 9) [] in
  fst r = Raise NotFound
  /\ session (snd r) = Some 9
  /\ db (snd r) = bob_likes_hello.
Proof.
  apply (logout_stale_session_stays bob_likes_hello 9 []). reflexivity.
Defined.

Lemma guarded_without_user (view : Ctx -> Outcome Response * Ctx)
      (store : Store) (cookie : option Z) (outs : list bool) :
  (forall c, g_user c = None -> view c = unauthorized c) ->
  match cookie with
  | Some uid => User_query_get uid store
  | None => None
  end = None ->
  Unauthorized (request view store cookie outs)
  /\ store_unchanged store (request view store cookie outs).
Proof.
  intros Hview Hnone. rewrite request_eq, Hnone. rewrite Hview by reflexivity.
  unfold Unauthorized, store_unchanged. simpl. auto.
Qed.

Ltac guard_first :=
  intros ? Hguard;
  match goal with
  | |- ?h _ = _ => unfold h
  | |- ?h _ _ = _ => unfold h
  | |- ?h _ _ _ = _ => unfold h
  end;
  unfold bind, get_g_user; simpl; rewrite Hguard; reflexivity.

(** X3.  [g.user] is set only when the session names a user of the store.
    With no session, or with a session whose user is gone, each of the
    eight handlers that start with the guard answers with the notice and
    the redirect to the home page, before it looks at its argument, and
    leaves the tables alone. *)
Theorem guard_without_current_user
        (store : Store) (cookie : option Z) (outs : list bool)
        (id : Z) (form : MessageForm.t) (now : Z) :
  match cookie with
  | Some uid => User_query_get uid store
  | None => None
  end = None ->
  (Unauthorized (request (show_following id) store cookie outs)
   /\ store_unchanged store (request (show_following id) store cookie outs))
  /\ (Unauthorized (request (users_followers id) store cookie outs)
      /\ store_unchanged store (request (users_followers id) store cookie outs))
  /\ (Unauthorized (request (user_likes id) store cookie outs)
      /\ store_unchanged store (request (user_likes id) store cookie outs))
  /\ (Unauthorized (request (add_follow id) store cookie outs)
      /\ store_unchanged store (request (add_follow id) store cookie outs))
  /\ (Unauthorized (request (stop_following id) store cookie outs)
      /\ store_unchanged store (request (stop_following id) store cookie outs))
  /\ (Unauthorized (request delete_user store cookie outs)
      /\ store_unchanged store (request delete_user store cookie outs))
  /\ (Unauthorized (request (messages_add form now) store cookie outs)
      /\ store_unchanged store (request (messages_add form now) store cookie outs))
  /\ (Unauthorized (request (messages_destroy id) store cookie outs)
      /\ store_unchanged store (request (messages_destroy id) store cookie outs)).
Proof.
  intros Hnone.
  repeat match goal with
         | |- _ /\ _ => split
         end;
    try (apply guarded_without_user; [guard_first | exact Hnone]).
  all: apply guarded_without_user; [| exact Hnone]; intros c Hc;
    unfold delete_user, bind, get_g_user; simpl; rewrite Hc; reflexivity.
Qed.

Lemma guard_without_current_user_witness :
  Unauthorized (request (messages_destroy 7) bob_likes_hello (Some 9) [])
  /\ store_unchanged bob_likes_hello
       (request (messages_destroy 7) bob_likes_hello (Some 9) []).
Proof.
  apply (guard_without_current_user bob_likes_hello (Some 9) [] 7
           (MessageForm.mk "") 0).
  reflexivity.
Defined.

(** ** Handlers that only read *)

Lemma serve_eq {A} (view : M A) (store : Store) (cookie : option Z)
               (outs : list bool) :
  serve view store cookie outs
  = view (mkCtx store store cookie
                (match cookie with
                 | Some uid => User_query_get uid store
                 | None => None
                 end)
                [] outs).
Proof.
  unfold serve, bind. rewrite add_user_to_g_open. reflexivity.
Qed.

Ltac by_cases :=
  repeat (simpl;
          first
            [ match goal with
              | |- context [match ?x with Some _ => _ | None => _ end] =>
                  destruct x eqn:?
              end
            | match goal with
              | |- context [if ?x then _ else _] => destruct x eqn:?
              end ]);
  simpl; try reflexivity.

(** X4.  The pages, the login and the logout never write: whatever the
    store, the session, the argument and the outcome (a page, a redirect, a
    404 or a 500), the committed tables after the request are those
    before it. *)
Theorem views_never_write
        (store : Store) (cookie : option Z) (outs : list bool) (id : Z)
        (check_password_hash : string -> string -> bool) (form : LoginForm.t)
        (like : string -> string -> bool) (search : option string) :
  db (snd (request homepage store cookie outs)) = store
  /\ db (snd (request (users_show id) store cookie outs)) = store
  /\ db (snd (request (user_likes id) store cookie outs)) = store
  /\ db (snd (request (show_following id) store cookie outs)) = store
  /\ db (snd (request (users_followers id) store cookie outs)) = store
  /\ db (snd (request (login check_password_hash form) store cookie outs)) = store
  /\ db (snd (request logout store cookie outs)) = store
  /\ db (snd (serve (list_users like search) store cookie outs)) = store
  /\ db (snd (serve (messages_show id) store cookie outs)) = store.
Proof.
  rewrite !serve_eq, !request_eq.
  repeat match goal with
         | |- _ /\ _ => split
         end.
  - unfold homepage, g_user_id, bind, get_g_user, query, ret, raise. by_cases.
  - unfold users_show, get_or_404, g_user_id, bind, get_g_user, query, ret,
      raise. by_cases.
  - unfold user_likes, unauthorized, get_or_404, g_user_id, bind, get_g_user,
      query, flash, ret, raise. by_cases.
  - unfold show_following, unauthorized, get_or_404, bind, get_g_user,
      query, flash, ret, raise. by_cases.
  - unfold users_followers, unauthorized, get_or_404, bind, get_g_user,
      query, flash, ret, raise. by_cases.
  - unfold login, User_authenticate, do_login, bind, query, flash,
      set_session, ret, raise. by_cases.
  - unfold logout, session_curr_user, get_or_404, do_logout, bind,
      get_session, set_session, query, flash, ret, raise. by_cases.
  - unfold list_users, bind, query, ret. by_cases.
  - unfold messages_show, bind, query, ret. by_cases.
Qed.

(** ** Logging in *)

(** X5.  When the user found by the submitted username verifies the
    password, [POST /login] binds the session to that user's id, whatever
    session there was, flashes the greeting and redirects home. *)
Theorem login_binds_session
        (check_password_hash : string -> string -> bool)
        (store : Store) (cookie : option Z) (outs : list bool)
        (form : LoginForm.t) (user : User.t) :
  find (fun u => String.eqb (User.username u) (LoginForm.username form))
       (users store) = Some user ->
  check_password_hash (User.password user) (LoginForm.password form) = true ->
  let r := request (login check_password_hash form) store cookie outs in
  fst r = Return (redirect "/")
  /\ session (snd r) = Some (User.id user)
  /\ flashes (snd r) = [("Hello, " ++ User.username user ++ "!", "success")].
Proof.
  intros Hfind Hcheck r. subst r. rewrite request_eq.
  unfold login, User_authenticate, do_login, bind, query, flash, set_session.
  simpl. rewrite Hfind, Hcheck. simpl. repeat split.
Qed.

Lemma login_binds_session_witness :
  let r := request (login String.eqb (LoginForm.mk "bob" "h2"))
                   bob_likes_hello (Some 1) [] in
  fst r = Return (redirect "/")
  /\ session (snd r) = Some (User.id bob)
  /\ flashes (snd r) = [("Hello, " ++ User.username bob ++ "!", "success")].
Proof.
  apply (login_binds_session String.eqb bob_likes_hello (Some 1) []
           (LoginForm.mk "bob" "h2") bob); reflexivity.
Defined.

(** X6.  When no user verifies, [POST /login] flashes the notice and then
    falls off the end of the view: there is no response to send (a
    [TypeError] in Flask, hence a 500), and the session is left as it
    was. *)
Theorem login_invalid_credentials_no_response
        (check_password_hash : string -> string -> bool)
        (store : Store) (cookie : option Z) (outs : list bool)
        (form : LoginForm.t) :
  (forall user,
      find (fun u => String.eqb (User.username u) (LoginForm.username form))
           (users store) = Some user ->
      check_password_hash (User.password user) (LoginForm.password form) = false) ->
  let r := request (login check_password_hash form) store cookie outs in
  fst r = Raise TypeError
  /\ session (snd r) = cookie
  /\ flashes (snd r) = [("Invalid credentials.", "danger")].
Proof.
  intros Hno r. subst r. rewrite request_eq.
  unfold login, User_authenticate, do_login, bind, query, flash, set_session.
  simpl.
  destruct (find _ (users store)) as [user |] eqn:Hfind; simpl.
  - rewrite (Hno user eq_refl). simpl. repeat split.
  - repeat split.
Qed.

Lemma login_invalid_credentials_no_response_witness :
  let r := request (login String.eqb (LoginForm.mk "bob" "guess"))
                   bob_likes_hello None [] in
  fst r = Raise TypeError
  /\ session (snd r) = None
  /\ flashes (snd r) = [("Invalid credentials.", "danger")].
Proof.
  apply (login_invalid_credentials_no_response String.eqb bob_likes_hello
           None [] (LoginForm.mk "bob" "guess")).
  simpl. intros user H. injection H as <-. reflexivity.
Defined.

(** ** Following and unfollowing *)

Lemma follows_eqb_eq (a b : Follows.t) : follows_eqb a b = true <-> a = b.
Proof.
  unfold follows_eqb. rewrite andb_true_iff, !Z.eqb_eq.
  destruct a, b; simpl. split.
  - intros [-> ->]. reflexivity.
  - intros H. injection H as -> ->. auto.
Qed.

Lemma likes_eqb_eq (a b : Likes.t) : likes_eqb a b = true <-> a = b.
Proof.
  unfold likes_eqb. rewrite andb_true_iff, !Z.eqb_eq.
  destruct a, b; simpl. split.
  - intros [-> ->]. reflexivity.
  - intros H. injection H as -> ->. auto.
Qed.

Lemma distinct_app_fresh {A} (eqb : A -> A -> bool) (l : list A) (x : A) :
  distinct eqb l = true ->
  (forall a, In a l -> eqb a x = false) ->
  distinct eqb (l ++ [x]) = true.
Proof.
  induction l as [|a l IH]; simpl; intros Hd Hfresh; [reflexivity |].
  apply andb_true_iff in Hd. destruct Hd as [Hnot Hd].
  apply andb_true_iff. split; [| apply IH; auto].
  rewrite existsb_app. simpl. rewrite (Hfresh a) by auto.
  rewrite !orb_false_r. exact Hnot.
Qed.

Lemma filter_out_appended {A} (p : A -> bool) (l : list A) (x : A) :
  (forall a, In a l -> p a = true) -> p x = false ->
  filter p (l ++ [x]) = l.
Proof.
  intros Hl Hx. rewrite filter_app. simpl. rewrite Hx, app_nil_r.
  induction l as [|a l IH]; simpl; [reflexivity |].
  rewrite (Hl a) by (left; reflexivity). f_equal. apply IH.
  intros b Hb. apply Hl. right. exact Hb.
Qed.

Lemma in_user_ids (uid : Z) (s : Store) (u : User.t) :
  User_query_get uid s = Some u -> in_ uid (user_ids s) = true.
Proof.
  intros H. apply query_get_id in H. destruct H as [<- Hin].
  apply in_spec. unfold user_ids. apply in_map. exact Hin.
Qed.

Lemma users_by_ids_In (ids : list Z) (s : Store) (i : Z) (u : User.t) :
  In i ids -> User_query_get i s = Some u -> In u (users_by_ids ids s).
Proof.
  induction ids as [|i0 ids IH]; simpl; [contradiction |].
  intros [-> | Hin] Hu.
  - rewrite Hu. left. reflexivity.
  - destruct (User_query_get i0 s); [right |]; apply IH; assumption.
Qed.

Lemma users_by_ids_ids (ids : list Z) (s : Store) (i : Z) :
  In i (map User.id (users_by_ids ids s)) -> In i ids.
Proof.
  induction ids as [|i0 ids IH]; simpl; [tauto |].
  destruct (User_query_get i0 s) as [u |] eqn:E; simpl.
  - intros [H | H]; [left | right; apply IH, H].
    apply query_get_id in E. destruct E as [E _]. congruence.
  - intros H. right. apply IH, H.
Qed.

Lemma store_eta (s : Store) :
  mkStore (users s) (messages s) (follows s) (likes s) = s.
Proof. destruct s; reflexivity. Qed.

Lemma add_follow_row_constraints (uid fid : Z) (me fu : User.t) (s : Store) :
  constraints s = true ->
  User_query_get uid s = Some me ->
  User_query_get fid s = Some fu ->
  ~ In (Follows.mk uid fid) (follows s) ->
  constraints (add_follow_row (Follows.mk uid fid) s) = true.
Proof.
  intros Hc Hme Hfu Hnew. revert Hc.
  unfold constraints, user_ids, message_ids. simpl.
  rewrite !andb_true_iff.
  intros [[[[[[[[H1 H2] H3] H4] H5] H6] H7] H8] H9].
  repeat split; auto.
  - apply distinct_app_fresh; [exact H6 |].
    intros a Ha. destruct (follows_eqb a (Follows.mk uid fid)) eqn:E; [| reflexivity].
    apply follows_eqb_eq in E. subst a. contradiction.
  - rewrite forallb_app, H7. simpl.
    fold (user_ids s).
    rewrite (in_user_ids uid s me Hme), (in_user_ids fid s fu Hfu). reflexivity.
Qed.

Lemma append_following_new (e : Follows.t) (s : Store) :
  ~ In e (follows s) -> append_following e s = add_follow_row e s.
Proof.
  intros Hnew. unfold append_following.
  destruct (existsb (follows_eqb e) (follows s)) eqn:E; [| reflexivity].
  exfalso. apply existsb_exists in E. destruct E as [e' [Hin Heq]].
  apply follows_eqb_eq in Heq. subst e'. contradiction.
Qed.

Lemma append_following_old (e : Follows.t) (s : Store) :
  In e (follows s) -> append_following e s = s.
Proof.
  intros Hin. unfold append_following.
  destruct (existsb (follows_eqb e) (follows s)) eqn:E; [reflexivity |].
  exfalso. assert (H : existsb (follows_eqb e) (follows s) = true).
  { apply existsb_exists. exists e. split; [exact Hin |].
    apply follows_eqb_eq. reflexivity. }
  congruence.
Qed.

Lemma In_dec_follows (e : Follows.t) (s : Store) :
  In e (follows s) \/ ~ In e (follows s).
Proof.
  destruct (existsb (follows_eqb e) (follows s)) eqn:E.
  - left. apply existsb_exists in E. destruct E as [e' [Hin Heq]].
    apply follows_eqb_eq in Heq. subst e'. exact Hin.
  - right. intros Hin.
    assert (H : existsb (follows_eqb e) (follows s) = true).
    { apply existsb_exists. exists e. split; [exact Hin |].
      apply follows_eqb_eq. reflexivity. }
    congruence.
Qed.

Lemma append_following_constraints (uid fid : Z) (me fu : User.t) (s : Store) :
  constraints s = true ->
  User_query_get uid s = Some me ->
  User_query_get fid s = Some fu ->
  constraints (append_following (Follows.mk uid fid) s) = true.
Proof.
  intros Hc Hme Hfu.
  destruct (In_dec_follows (Follows.mk uid fid) s) as [Hin | Hnew].
  - rewrite (append_following_old _ _ Hin). exact Hc.
  - rewrite (append_following_new _ _ Hnew).
    apply (add_follow_row_constraints uid fid me fu); assumption.
Qed.

(** What [add_follow] leaves behind for a logged-in user and an existing
    followee, followed already or not. *)
Lemma add_follow_run
      (store : Store) (uid fid : Z) (me fu : User.t) :
  constraints store = true ->
  User_query_get uid store = Some me ->
  User_query_get fid store = Some fu ->
  request (add_follow fid) store (Some uid) []
  = (Return (redirect ("/users/" ++ str uid ++ "/following")),
     mkCtx (append_following (Follows.mk uid fid) store)
           (append_following (Follows.mk uid fid) store)
           (Some uid) (Some me) [] []).
Proof.
  intros Hc Hme Hfu.
  pose proof (query_get_id _ _ _ Hme) as [Hid _].
  pose proof (query_get_id _ _ _ Hfu) as [Hfid _].
  rewrite request_eq, Hme.
  unfold add_follow, get_or_404, g_user_id, bind, get_g_user, query, pending,
    commit, ret.
  cbv beta iota delta [uow db session g_user flashes outages fst snd].
  rewrite Hfu. cbv beta iota. rewrite Hid, Hfid.
  rewrite (append_following_constraints uid fid me fu store Hc Hme Hfu).
  cbv beta iota delta [g_user]. rewrite Hid. reflexivity.
Qed.

Lemma add_follow_logged_in
      (store : Store) (uid fid : Z) (me fu : User.t) :
  constraints store = true ->
  User_query_get uid store = Some me ->
  User_query_get fid store = Some fu ->
  ~ In (Follows.mk uid fid) (follows store) ->
  request (add_follow fid) store (Some uid) []
  = (Return (redirect ("/users/" ++ str uid ++ "/following")),
     mkCtx (add_follow_row (Follows.mk uid fid) store)
           (add_follow_row (Follows.mk uid fid) store)
           (Some uid) (Some me) [] []).
Proof.
  intros Hc Hme Hfu Hnew.
  rewrite (add_follow_run store uid fid me fu Hc Hme Hfu).
  rewrite (append_following_new _ _ Hnew). reflexivity.
Qed.

Lemma following_after_add_follow
      (store : Store) (uid fid : Z) (me fu : User.t) :
  User_query_get uid store = Some me ->
  User_query_get fid store = Some fu ->
  In fu (following me (add_follow_row (Follows.mk uid fid) store)).
Proof.
  intros Hme Hfu.
  pose proof (query_get_id _ _ _ Hme) as [Hid _].
  unfold following. simpl.
  apply (users_by_ids_In _ _ fid); [| exact Hfu].
  apply in_map_iff. exists (Follows.mk uid fid). split; [reflexivity |].
  apply filter_In. split.
  - apply in_or_app. right. left. reflexivity.
  - simpl. rewrite Hid. apply Z.eqb_refl.
Qed.

(** X7.  A logged-in user who follows an existing user they do not follow
    yet (themselves included: the handler does not look) gets exactly the
    edge (follower, followee) appended, finds the followee in their
    [following] afterwards, and is sent to their following page. *)
Theorem add_follow_adds_edge
        (store : Store) (uid fid : Z) (me fu : User.t) :
  constraints store = true ->
  User_query_get uid store = Some me ->
  User_query_get fid store = Some fu ->
  ~ In (Follows.mk uid fid) (follows store) ->
  let r := request (add_follow fid) store (Some uid) [] in
  fst r = Return (redirect ("/users/" ++ str uid ++ "/following"))
  /\ db (snd r) = add_follow_row (Follows.mk uid fid) store
  /\ In fu (following me (db (snd r))).
Proof.
  intros Hc Hme Hfu Hnew r. subst r.
  rewrite (add_follow_logged_in store uid fid me fu Hc Hme Hfu Hnew). simpl.
  split; [reflexivity |]. split; [reflexivity |].
  apply following_after_add_follow; assumption.
Qed.

Lemma add_follow_adds_edge_witness :
  let r := request (add_follow 1) bob_likes_hello (Some 2) [] in
  fst r = Return (redirect ("/users/" ++ str 2 ++ "/following"))
  /\ db (snd r) = add_follow_row (Follows.mk 2 1) bob_likes_hello
  /\ In alice (following bob (db (snd r))).
Proof.
  apply (add_follow_adds_edge bob_likes_hello 2 1 bob alice);
    try reflexivity.
  simpl. intros H. exact H.
Defined.

Lemma delete_added_follow (e : Follows.t) (s : Store) :
  ~ In e (follows s) -> delete_follow_row e (add_follow_row e s) = s.
Proof.
  intros Hnew. unfold delete_follow_row, add_follow_row. simpl.
  rewrite filter_out_appended.
  - apply store_eta.
  - intros a Ha. apply negb_true_iff.
    destruct (follows_eqb a e) eqn:E; [| reflexivity].
    apply follows_eqb_eq in E. subst a. contradiction.
  - apply negb_false_iff, follows_eqb_eq. reflexivity.
Qed.

Lemma filter_all {A} (p : A -> bool) (l : list A) :
  (forall a, In a l -> p a = true) -> filter p l = l.
Proof.
  intros Hl. induction l as [|a l IH]; simpl; [reflexivity |].
  rewrite (Hl a) by (left; reflexivity). f_equal. apply IH.
  intros b Hb. apply Hl. right. exact Hb.
Qed.

Lemma delete_follow_row_absent (e : Follows.t) (s : Store) :
  ~ In e (follows s) -> delete_follow_row e s = s.
Proof.
  intros Hnew. unfold delete_follow_row. rewrite filter_all.
  - apply store_eta.
  - intros a Ha. apply negb_true_iff.
    destruct (follows_eqb a e) eqn:E; [| reflexivity].
    apply follows_eqb_eq in E. subst a. contradiction.
Qed.

Lemma delete_follow_row_append (e : Follows.t) (s : Store) :
  delete_follow_row e (append_following e s) = delete_follow_row e s.
Proof.
  destruct (In_dec_follows e s) as [Hin | Hnew].
  - rewrite (append_following_old _ _ Hin). reflexivity.
  - rewrite (append_following_new _ _ Hnew), (delete_added_follow _ _ Hnew).
    symmetry. apply delete_follow_row_absent, Hnew.
Qed.

Lemma delete_follow_row_removes (e : Follows.t) (s : Store) :
  ~ In e (follows (delete_follow_row e s)).
Proof.
  unfold delete_follow_row. simpl. intros Hin. apply filter_In in Hin.
  destruct Hin as [_ Hneq]. apply negb_true_iff in Hneq.
  assert (H : follows_eqb e e = true) by (apply follows_eqb_eq; reflexivity).
  congruence.
Qed.

Lemma delete_follow_row_constraints (e : Follows.t) (s : Store) :
  constraints s = true -> constraints (delete_follow_row e s) = true.
Proof.
  unfold constraints, user_ids, message_ids. simpl.
  rewrite !andb_true_iff.
  intros [[[[[[[[H1 H2] H3] H4] H5] H6] H7] H8] H9].
  repeat split; auto using distinct_filter.
  eapply forallb_filter_weaken; [| exact H7]. auto.
Qed.

Lemma following_of_edge (s : Store) (uid fid : Z) (me fu : User.t) :
  User_query_get uid s = Some me ->
  User_query_get fid s = Some fu ->
  In (Follows.mk uid fid) (follows s) ->
  In fu (following me s).
Proof.
  intros Hme Hfu Hin.
  pose proof (query_get_id _ _ _ Hme) as [Hid _].
  unfold following.
  apply (users_by_ids_In _ _ fid); [| exact Hfu].
  apply in_map_iff. exists (Follows.mk uid fid). split; [reflexivity |].
  apply filter_In. split; [exact Hin |].
  simpl. rewrite Hid. apply Z.eqb_refl.
Qed.

Lemma append_following_users (e : Follows.t) (s : Store) :
  users (append_following e s) = users s.
Proof.
  unfold append_following. destruct (existsb _ _); reflexivity.
Qed.

Lemma append_following_In (e : Follows.t) (s : Store) :
  In e (follows (append_following e s)).
Proof.
  destruct (In_dec_follows e s) as [Hin | Hnew].
  - rewrite (append_following_old _ _ Hin). exact Hin.
  - rewrite (append_following_new _ _ Hnew). simpl.
    apply in_or_app. right. left. reflexivity.
Qed.

Lemma existsb_id_In (fu : User.t) (l : list User.t) :
  In fu l -> existsb (fun u => User.id u =? User.id fu) l = true.
Proof.
  intros H. apply existsb_exists. exists fu. split; [exact H | apply Z.eqb_refl].
Qed.

(** X8.  For a logged-in user and an existing followee, following and then
    unfollowing leaves the tables as they were without the edge (follower,
    followee).  When the user did not follow the followee before, the
    follow appends the edge and the unfollow puts the tables back exactly
    as they were; when the user followed them already, the follow writes
    nothing and the unfollow removes the earlier edge, so the tables are
    not restored. *)
Theorem follow_then_unfollow
        (store : Store) (uid fid : Z) (me fu : User.t) :
  constraints store = true ->
  User_query_get uid store = Some me ->
  User_query_get fid store = Some fu ->
  let followed := request (add_follow fid) store (Some uid) [] in
  let r := request (stop_following fid) (db (snd followed)) (Some uid) [] in
  In (Follows.mk uid fid) (follows (db (snd followed)))
  /\ fst r = Return (redirect ("/users/" ++ str uid ++ "/following"))
  /\ db (snd r) = delete_follow_row (Follows.mk uid fid) store
  /\ ~ In (Follows.mk uid fid) (follows (db (snd r)))
  /\ (~ In (Follows.mk uid fid) (follows store) ->
      db (snd followed) = add_follow_row (Follows.mk uid fid) store
      /\ db (snd r) = store)
  /\ (In (Follows.mk uid fid) (follows store) ->
      db (snd followed) = store /\ db (snd r) <> store).
Proof.
  intros Hc Hme Hfu followed r. subst r followed.
  pose proof (query_get_id _ _ _ Hme) as [Hid _].
  pose proof (query_get_id _ _ _ Hfu) as [Hfid _].
  rewrite (add_follow_run store uid fid me fu Hc Hme Hfu).
  cbv beta iota delta [fst snd db].
  set (e := Follows.mk uid fid).
  assert (Hme1 : User_query_get uid (append_following e store) = Some me).
  { unfold User_query_get. rewrite append_following_users. exact Hme. }
  assert (Hfu1 : User_query_get fid (append_following e store) = Some fu).
  { unfold User_query_get. rewrite append_following_users. exact Hfu. }
  assert (Hrun : request (stop_following fid) (append_following e store)
                         (Some uid) []
                 = (Return (redirect ("/users/" ++ str uid ++ "/following")),
                    mkCtx (delete_follow_row e store) (delete_follow_row e store)
                          (Some uid) (Some me) [] [])).
  { rewrite request_eq, Hme1.
    unfold stop_following, g_user_id, bind, get_g_user, query, pending,
      commit, ret.
    cbv beta iota delta [uow db session g_user flashes outages fst snd].
    rewrite Hfu1. cbv beta iota.
    rewrite (existsb_id_In fu _
               (following_of_edge _ uid fid me fu Hme1 Hfu1
                  (append_following_In e store))).
    rewrite Hid, Hfid. fold e. rewrite (delete_follow_row_append e store).
    rewrite (delete_follow_row_constraints e store Hc).
    cbv beta iota delta [g_user]. rewrite Hid. reflexivity. }
  rewrite Hrun. cbv beta iota delta [fst snd db].
  split; [apply append_following_In |].
  split; [reflexivity |]. split; [reflexivity |].
  split; [apply delete_follow_row_removes |]. split.
  - intros Hnew. split.
    + apply append_following_new, Hnew.
    + apply delete_follow_row_absent, Hnew.
  - intros Hin. split.
    + apply append_following_old, Hin.
    + intros Heq. apply (delete_follow_row_removes e store).
      rewrite Heq. exact Hin.
Qed.

Lemma follow_then_unfollow_witness :
  let followed := request (add_follow 1) carol_follows_both (Some 3) [] in
  let r := request (stop_following 1) (db (snd followed)) (Some 3) [] in
  In (Follows.mk 3 1) (follows (db (snd followed)))
  /\ fst r = Return (redirect ("/users/" ++ str 3 ++ "/following"))
  /\ db (snd r) = delete_follow_row (Follows.mk 3 1) carol_follows_both
  /\ ~ In (Follows.mk 3 1) (follows (db (snd r)))
  /\ (~ In (Follows.mk 3 1) (follows carol_follows_both) ->
      db (snd followed) = add_follow_row (Follows.mk 3 1) carol_follows_both
      /\ db (snd r) = carol_follows_both)
  /\ (In (Follows.mk 3 1) (follows carol_follows_both) ->
      db (snd followed) = carol_follows_both
      /\ db (snd r) <> carol_follows_both).
Proof.
  apply (follow_then_unfollow carol_follows_both 3 1 carol alice);
    reflexivity.
Defined.

(** Bob does not follow alice: the follow and the unfollow cancel. *)
Example bob_follows_then_unfollows_alice :
  let followed := request (add_follow 1) bob_likes_hello (Some 2) [] in
  let r := request (stop_following 1) (db (snd followed)) (Some 2) [] in
  follows (db (snd followed)) = [Follows.mk 2 1]
  /\ db (snd r) = bob_likes_hello.
Proof. split; reflexivity. Qed.

(** Carol follows alice already: the follow writes nothing, the unfollow
    removes the edge. *)
Example carol_follows_then_unfollows_alice :
  let followed := request (add_follow 1) carol_follows_both (Some 3) [] in
  let r := request (stop_following 1) (db (snd followed)) (Some 3) [] in
  db (snd followed) = carol_follows_both
  /\ follows (db (snd r)) = [Follows.mk 3 2].
Proof. split; reflexivity. Qed.

(** X9.  Following an id that is no user is a 404 for a logged-in user,
    and no edge is written. *)
Theorem add_follow_missing_user_404
        (store : Store) (uid fid : Z) (me : User.t) (outs : list bool) :
  User_query_get uid store = Some me ->
  User_query_get fid store = None ->
  let r := request (add_follow fid) store (Some uid) outs in
  fst r = Raise NotFound /\ db (snd r) = store.
Proof.
  intros Hme Hnone r. subst r. rewrite request_eq, Hme.
  unfold add_follow, get_or_404, bind, get_g_user, query. simpl.
  rewrite Hnone. split; reflexivity.
Qed.

Lemma add_follow_missing_user_404_witness :
  let r := request (add_follow 9) bob_likes_hello (Some 2) [] in
  fst r = Raise NotFound /\ db (snd r) = bob_likes_hello.
Proof.
  apply (add_follow_missing_user_404 bob_likes_hello 2 9 bob []); reflexivity.
Defined.

(** X10.  Unfollowing an id the logged-in user does not follow, whether it
    is a user or not, is not a 404 and not a no-op: [list.remove] raises a
    [ValueError] (a 500), and the tables stay as they were. *)
Theorem stop_following_not_followed_raises
        (store : Store) (uid fid : Z) (me : User.t) (outs : list bool) :
  User_query_get uid store = Some me ->
  ~ In fid (map User.id (following me store)) ->
  let r := request (stop_following fid) store (Some uid) outs in
  fst r = Raise ValueError /\ db (snd r) = store.
Proof.
  intros Hme Hnot r. subst r. rewrite request_eq, Hme.
  unfold stop_following, bind, get_g_user, query. cbn [g_user uow fst snd].
  destruct (User_query_get fid store) as [fu |] eqn:Hfu.
  - destruct (existsb _ (following me store)) eqn:E.
    + exfalso. apply Hnot. apply existsb_exists in E.
      destruct E as [u [Hu Heq]]. apply Z.eqb_eq in Heq.
      apply query_get_id in Hfu. destruct Hfu as [Hfid _].
      rewrite <- Hfid, <- Heq. apply in_map. exact Hu.
    + split; reflexivity.
  - split; reflexivity.
Qed.

Lemma stop_following_not_followed_raises_witness :
  let r := request (stop_following 1) bob_likes_hello (Some 2) [] in
  fst r = Raise ValueError /\ db (snd r) = bob_likes_hello.
Proof.
  apply (stop_following_not_followed_raises bob_likes_hello 2 1 bob []).
  - reflexivity.
  - simpl. intros H. exact H.
Defined.

(** ** Posting and deleting a message *)

Lemma fresh_id_above (ids : list Z) (x : Z) : In x ids -> x < fresh_id ids.
Proof.
  unfold fresh_id. induction ids as [|y ids IH]; intros H; [contradiction |].
  cbn [fold_right]. destruct H as [-> | H]; [lia |]. specialize (IH H). lia.
Qed.

Lemma fresh_id_new (ids : list Z) : in_ (fresh_id ids) ids = false.
Proof.
  destruct (in_ (fresh_id ids) ids) eqn:E; [| reflexivity].
  apply in_spec, fresh_id_above in E. lia.
Qed.

Lemma in_app_weaken (x : Z) (l : list Z) (y : Z) :
  in_ x l = true -> in_ x (l ++ [y]) = true.
Proof.
  rewrite !in_spec. intros H. apply in_or_app. left. exact H.
Qed.

Lemma forallb_weaken {A} (q q' : A -> bool) (l : list A) :
  (forall x, q x = true -> q' x = true) ->
  forallb q l = true -> forallb q' l = true.
Proof.
  intros Himp. rewrite !forallb_forall. auto.
Qed.

Lemma add_message_row_constraints
      (new_id uid : Z) (me : User.t) (text : string) (now : Z) (s : Store) :
  constraints s = true ->
  User_query_get uid s = Some me ->
  ~ In new_id (message_ids s) ->
  constraints (add_message_row (Message.mk new_id text now uid) s) = true.
Proof.
  intros Hc Hme Hnew. revert Hc.
  unfold constraints, user_ids. simpl.
  rewrite !andb_true_iff.
  intros [[[[[[[[H1 H2] H3] H4] H5] H6] H7] H8] H9].
  repeat split; auto.
  - unfold message_ids. simpl. rewrite map_app. simpl.
    apply distinct_app_fresh; [exact H4 |].
    intros a Ha. apply Z.eqb_neq. intros ->. contradiction.
  - rewrite forallb_app, H5. simpl.
    fold (user_ids s). rewrite (in_user_ids uid s me Hme). reflexivity.
  - eapply forallb_weaken; [| exact H9]. simpl. intros l.
    rewrite !andb_true_iff. intros [Ha Hb]. split; [exact Ha |].
    unfold message_ids. simpl. rewrite map_app. apply in_app_weaken. exact Hb.
Qed.

(** [messages_add] is [messages_add_at] with the id after the highest one,
    which no message has. *)
Lemma messages_add_at_fresh (form : MessageForm.t) (now : Z) (c : Ctx) :
  messages_add form now c
  = messages_add_at (fresh_id (message_ids (uow c))) form now c
  /\ ~ In (fresh_id (message_ids (uow c))) (message_ids (uow c)).
Proof.
  split.
  - unfold messages_add, messages_add_at, bind, get_g_user, query. simpl.
    destruct (g_user c); reflexivity.
  - intros Hin. apply fresh_id_above in Hin. lia.
Qed.

Lemma messages_add_at_logged_in
      (store : Store) (uid : Z) (me : User.t) (new_id : Z)
      (form : MessageForm.t) (now : Z) :
  constraints store = true ->
  User_query_get uid store = Some me ->
  ~ In new_id (message_ids store) ->
  (String.length (MessageForm.text form) <= max_text_length)%nat ->
  let msg := Message.mk new_id (MessageForm.text form) now uid in
  request (messages_add_at new_id form now) store (Some uid) []
  = (Return (redirect ("/users/" ++ str uid)),
     mkCtx (add_message_row msg store) (add_message_row msg store)
           (Some uid) (Some me) [] []).
Proof.
  intros Hc Hme Hnew Hlen msg. subst msg.
  pose proof (query_get_id _ _ _ Hme) as [Hid _].
  rewrite request_eq, Hme.
  unfold messages_add_at, store_accepts_text, g_user_id, bind, get_g_user,
    pending, commit, ret.
  cbv beta iota zeta delta [uow db session g_user flashes outages fst snd
                            Message.text].
  apply Nat.leb_le in Hlen. rewrite Hlen. cbv beta iota. rewrite Hid.
  rewrite (add_message_row_constraints new_id uid me _ now store Hc Hme Hnew).
  cbv beta iota delta [g_user]. rewrite ?Hid. reflexivity.
Qed.

(** A text over the bound: the row is refused and nothing is committed. *)
Lemma messages_add_at_long_text
      (store : Store) (uid : Z) (me : User.t) (new_id : Z)
      (form : MessageForm.t) (now : Z) (outs : list bool) :
  User_query_get uid store = Some me ->
  (max_text_length < String.length (MessageForm.text form))%nat ->
  let r := request (messages_add_at new_id form now) store (Some uid) outs in
  fst r = Raise DataError /\ db (snd r) = store.
Proof.
  intros Hme Hlen r. subst r. rewrite request_eq, Hme.
  unfold messages_add_at, store_accepts_text, g_user_id, bind, get_g_user,
    pending, commit, ret, raise.
  cbv beta iota zeta delta [uow db session g_user flashes outages fst snd
                            Message.text].
  apply Nat.leb_gt in Hlen. rewrite Hlen. split; reflexivity.
Qed.

Lemma find_app_fresh {A} (p : A -> bool) (l : list A) (x : A) :
  (forall a, In a l -> p a = false) -> p x = true ->
  find p (l ++ [x]) = Some x.
Proof.
  intros Hl Hx. induction l as [|a l IH]; simpl.
  - rewrite Hx. reflexivity.
  - rewrite (Hl a) by (left; reflexivity). apply IH.
    intros b Hb. apply Hl. right. exact Hb.
Qed.

Lemma lookup_added_message (s : Store) (new_id : Z) (text : string) (now uid : Z) :
  ~ In new_id (message_ids s) ->
  let msg := Message.mk new_id text now uid in
  Message_query_get new_id (add_message_row msg s) = Some msg.
Proof.
  intros Hnew msg. unfold Message_query_get. simpl. apply find_app_fresh.
  - intros a Ha. apply Z.eqb_neq. intros Heq. apply Hnew. rewrite <- Heq.
    unfold message_ids. apply in_map. exact Ha.
  - simpl. apply Z.eqb_refl.
Qed.

(** X11.  Whatever id the store gives the new row, as long as no message
    has it: a logged-in user's post with a text within the bound of the
    column is appended as one new row with that id, the submitted text as
    it is (the handler does not validate the form, so an empty text is
    stored too), the clock reading as timestamp and the poster as owner;
    looking the id up finds the row, the older rows are untouched, and the
    poster is sent to their profile.  A text over the bound is refused by
    the store and nothing is written. *)
Theorem messages_add_appends
        (store : Store) (uid : Z) (me : User.t) (new_id : Z)
        (form : MessageForm.t) (now : Z) :
  constraints store = true ->
  User_query_get uid store = Some me ->
  ~ In new_id (message_ids store) ->
  (String.length (MessageForm.text form) <= max_text_length)%nat ->
  let r := request (messages_add_at new_id form now) store (Some uid) [] in
  let msg := Message.mk new_id (MessageForm.text form) now uid in
  fst r = Return (redirect ("/users/" ++ str uid))
  /\ messages (db (snd r)) = (messages store ++ [msg])%list
  /\ Message_query_get new_id (db (snd r)) = Some msg
  /\ users (db (snd r)) = users store
  /\ follows (db (snd r)) = follows store
  /\ likes (db (snd r)) = likes store
  /\ (forall long : MessageForm.t,
        (max_text_length < String.length (MessageForm.text long))%nat ->
        let refused := request (messages_add_at new_id long now)
                               store (Some uid) [] in
        fst refused = Raise DataError /\ db (snd refused) = store).
Proof.
  intros Hc Hme Hnew Hlen r msg. subst r.
  rewrite (messages_add_at_logged_in store uid me new_id form now
             Hc Hme Hnew Hlen).
  cbv beta iota zeta delta [fst snd db].
  split; [reflexivity |]. split; [reflexivity |].
  split; [apply lookup_added_message, Hnew |].
  split; [reflexivity |]. split; [reflexivity |]. split; [reflexivity |].
  intros long Hlong.
  apply (messages_add_at_long_text store uid me new_id long now [] Hme Hlong).
Qed.

Lemma messages_add_appends_witness :
  let r := request (messages_add_at 9 (MessageForm.mk "") 300)
                   bob_likes_hello (Some 2) [] in
  let msg := Message.mk 9 "" 300 2 in
  fst r = Return (redirect ("/users/" ++ str 2))
  /\ messages (db (snd r)) = (messages bob_likes_hello ++ [msg])%list
  /\ Message_query_get 9 (db (snd r)) = Some msg
  /\ users (db (snd r)) = users bob_likes_hello
  /\ follows (db (snd r)) = follows bob_likes_hello
  /\ likes (db (snd r)) = likes bob_likes_hello
  /\ (forall long : MessageForm.t,
        (max_text_length < String.length (MessageForm.text long))%nat ->
        let refused := request (messages_add_at 9 long 300)
                               bob_likes_hello (Some 2) [] in
        fst refused = Raise DataError /\ db (snd refused) = bob_likes_hello).
Proof.
  apply (messages_add_appends bob_likes_hello 2 bob 9 (MessageForm.mk "") 300).
  - reflexivity.
  - reflexivity.
  - simpl. intros [H | []]. discriminate H.
  - unfold max_text_length. simpl. lia.
Defined.

Lemma delete_added_message (s : Store) (new_id : Z) (text : string) (now uid : Z) :
  constraints s = true ->
  ~ In new_id (message_ids s) ->
  let msg := Message.mk new_id text now uid in
  delete_message_row msg (add_message_row msg s) = s.
Proof.
  intros Hc Hnew msg. unfold delete_message_row, add_message_row. simpl.
  rewrite filter_out_appended.
  - rewrite filter_all; [apply store_eta |].
    intros l Hl. apply negb_true_iff, Z.eqb_neq.
    unfold constraints in Hc. rewrite !andb_true_iff in Hc.
    destruct Hc as [_ Hfk]. rewrite forallb_forall in Hfk.
    specialize (Hfk l Hl). apply andb_true_iff in Hfk. destruct Hfk as [_ Hm].
    apply in_spec in Hm. intros Heq. apply Hnew. rewrite <- Heq. exact Hm.
  - intros a Ha. apply negb_true_iff, Z.eqb_neq. intros Heq. apply Hnew.
    rewrite <- Heq. unfold message_ids. apply in_map. exact Ha.
  - simpl. apply negb_false_iff, Z.eqb_refl.
Qed.

(** X12.  Whatever id the store gives the new row, as long as no message
    has it: posting a message with a text within the bound and then
    deleting the message of that id puts the tables back exactly as they
    were; no other message and no like goes with it. *)
Theorem post_then_delete_restores
        (store : Store) (uid : Z) (me : User.t) (new_id : Z)
        (form : MessageForm.t) (now : Z) :
  constraints store = true ->
  User_query_get uid store = Some me ->
  ~ In new_id (message_ids store) ->
  (String.length (MessageForm.text form) <= max_text_length)%nat ->
  let posted := request (messages_add_at new_id form now) store (Some uid) [] in
  let r := request (messages_destroy new_id) (db (snd posted)) (Some uid) [] in
  Message_query_get new_id (db (snd posted))
  = Some (Message.mk new_id (MessageForm.text form) now uid)
  /\ fst r = Return (redirect ("/users/" ++ str uid))
  /\ db (snd r) = store.
Proof.
  intros Hc Hme Hnew Hlen posted r. subst r posted.
  pose proof (query_get_id _ _ _ Hme) as [Hid _].
  rewrite (messages_add_at_logged_in store uid me new_id form now
             Hc Hme Hnew Hlen).
  cbv beta iota zeta delta [fst snd db].
  split; [apply lookup_added_message, Hnew |].
  rewrite request_eq.
  match goal with
  | |- context [User_query_get uid (add_message_row ?m store)] =>
      change (User_query_get uid (add_message_row m store))
        with (User_query_get uid store)
  end.
  rewrite Hme.
  unfold messages_destroy, g_user_id, bind, get_g_user, query.
  cbn [g_user uow fst snd].
  rewrite (lookup_added_message store new_id _ now uid Hnew).
  unfold pending, commit. cbn [g_user uow db outages session flashes fst snd].
  rewrite (delete_added_message store new_id _ now uid Hc Hnew), Hc.
  simpl. rewrite ?Hid. split; reflexivity.
Qed.

Lemma post_then_delete_restores_witness :
  let posted := request (messages_add_at 9 (MessageForm.mk "bye") 300)
                        bob_likes_hello (Some 2) [] in
  let r := request (messages_destroy 9) (db (snd posted)) (Some 2) [] in
  Message_query_get 9 (db (snd posted)) = Some (Message.mk 9 "bye" 300 2)
  /\ fst r = Return (redirect ("/users/" ++ str 2))
  /\ db (snd r) = bob_likes_hello.
Proof.
  apply (post_then_delete_restores bob_likes_hello 2 bob 9
           (MessageForm.mk "bye") 300).
  - reflexivity.
  - reflexivity.
  - simpl. intros [H | []]. discriminate H.
  - unfold max_text_length. simpl. lia.
Defined.

(** X13.  Deleting a message id that is no message is not a 404: the
    lookup returns nothing, [db.session.delete] refuses it (a 500), and the
    tables stay as they were. *)
Theorem messages_destroy_missing_raises
        (store : Store) (uid : Z) (me : User.t) (message_id : Z)
        (outs : list bool) :
  User_query_get uid store = Some me ->
  Message_query_get message_id store = None ->
  let r := request (messages_destroy message_id) store (Some uid) outs in
  fst r = Raise UnmappedInstanceError
  /\ fst r <> Raise NotFound
  /\ db (snd r) = store.
Proof.
  intros Hme Hnone r. subst r. rewrite request_eq, Hme.
  unfold messages_destroy, bind, get_g_user, query. cbn [g_user uow fst snd].
  rewrite Hnone. simpl. repeat split. discriminate.
Qed.

Lemma messages_destroy_missing_raises_witness :
  let r := request (messages_destroy 99) bob_likes_hello (Some 2) [] in
  fst r = Raise UnmappedInstanceError
  /\ fst r <> Raise NotFound
  /\ db (snd r) = bob_likes_hello.
Proof.
  apply (messages_destroy_missing_raises bob_likes_hello 2 bob 99 []);
    reflexivity.
Defined.

(** ** The profile page *)

Lemma users_show_page
      (store : Store) (v : Z) (viewer : User.t) (user_id : Z) (user : User.t)
      (outs : list bool) :
  User_query_get v store = Some viewer ->
  User_query_get user_id store = Some user ->
  fst (request (users_show user_id) store (Some v) outs)
  = Return
      (render_template "users/show.html"
         [kw_user user;
          kw_messages
            (limit 100
               (order_by_timestamp_desc
                  (filter (fun m => Message.user_id m =? user_id)
                          (messages store))));
          kw_num_likes (List.length (likes_of_user v store))]).
Proof.
  intros Hv Hu. rewrite request_eq, Hv.
  unfold users_show, get_or_404, g_user_id, bind, get_g_user, query.
  cbn [g_user uow fst snd]. rewrite Hu. unfold ret.
  cbn [g_user uow fst snd]. rewrite append_message_ids_spec.
  apply query_get_id in Hv. destruct Hv as [-> _]. reflexivity.
Qed.

(** X14.  For a logged-in viewer, the profile of an existing user shows
    that user's record and messages of that user only, newest first, at
    most 100 of them; a message of the user that is left out is no newer
    than any message on a full page. *)
Theorem users_show_messages
        (store : Store) (v : Z) (viewer : User.t) (user_id : Z) (user : User.t)
        (outs : list bool) :
  User_query_get v store = Some viewer ->
  User_query_get user_id store = Some user ->
  exists msgs n,
    fst (request (users_show user_id) store (Some v) outs)
    = Return (render_template "users/show.html"
                [kw_user user; kw_messages msgs; kw_num_likes n])
    /\ User.id user = user_id
    /\ (forall m, In m msgs ->
                  In m (messages store) /\ Message.user_id m = user_id)
    /\ StronglySorted newer_or_equal msgs
    /\ (List.length msgs <= 100)%nat
    /\ (forall m, In m (messages store) -> Message.user_id m = user_id ->
                  In m msgs
                  \/ (List.length msgs = 100%nat
                      /\ forall m', In m' msgs -> newer_or_equal m' m)).
Proof.
  intros Hv Hu.
  eexists _, _. split; [apply (users_show_page _ _ _ _ _ _ Hv Hu) |].
  set (own := filter _ (messages store)).
  assert (Hown : forall m, In m own <->
            In m (messages store) /\ Message.user_id m = user_id).
  { intros m. unfold own. rewrite filter_In, Z.eqb_eq. tauto. }
  split; [apply (query_get_id _ _ _ Hu) |].
  split; [| split; [| split]].
  - intros m Hm. apply Hown, order_by_In, (limit_In 100). exact Hm.
  - apply sorted_firstn, order_by_sorted.
  - unfold limit. apply firstn_le_length.
  - intros m Hm Ho. apply limit_newest; [apply order_by_sorted |].
    apply order_by_In, Hown. auto.
Qed.

Lemma users_show_messages_witness :
  exists msgs n,
    fst (request (users_show 1) carol_follows_both (Some 3) [])
    = Return (render_template "users/show.html"
                [kw_user alice; kw_messages msgs; kw_num_likes n])
    /\ User.id alice = 1
    /\ (forall m, In m msgs ->
                  In m (messages carol_follows_both) /\ Message.user_id m = 1)
    /\ StronglySorted newer_or_equal msgs
    /\ (List.length msgs <= 100)%nat
    /\ (forall m, In m (messages carol_follows_both) -> Message.user_id m = 1 ->
                  In m msgs
                  \/ (List.length msgs = 100%nat
                      /\ forall m', In m' msgs -> newer_or_equal m' m)).
Proof.
  apply (users_show_messages carol_follows_both 3 carol 1 alice []);
    reflexivity.
Defined.

(** X15.  The profile of an id that is no user is a 404 for everyone: the
    lookup comes before the handler touches [g.user], so an anonymous
    client gets the 404 as well. *)
Theorem users_show_missing_user_404
        (store : Store) (user_id : Z) (cookie : option Z) (outs : list bool) :
  User_query_get user_id store = None ->
  fst (request (users_show user_id) store cookie outs) = Raise NotFound.
Proof.
  intros Hnone. rewrite request_eq.
  unfold users_show, get_or_404, bind, query. cbn [uow fst snd].
  rewrite Hnone. reflexivity.
Qed.

Lemma users_show_missing_user_404_witness :
  fst (request (users_show 9) bob_likes_hello None []) = Raise NotFound.
Proof.
  apply (users_show_missing_user_404 bob_likes_hello 9 None []). reflexivity.
Defined.

(** ** Liking a message nobody likes yet *)

Lemma in_message_ids (mid : Z) (s : Store) (m : Message.t) :
  Message_query_get mid s = Some m -> in_ mid (message_ids s) = true.
Proof.
  unfold Message_query_get. intros H. apply find_some in H.
  destruct H as [Hin Heq]. apply Z.eqb_eq in Heq. subst mid.
  apply in_spec. unfold message_ids. apply in_map. exact Hin.
Qed.

Lemma add_like_row_constraints
      (uid mid : Z) (me : User.t) (m : Message.t) (s : Store) :
  constraints s = true ->
  User_query_get uid s = Some me ->
  Message_query_get mid s = Some m ->
  (forall l, In l (likes s) -> Likes.message_id l <> mid) ->
  constraints (add_like_row (Likes.mk uid mid) s) = true.
Proof.
  intros Hc Hme Hm Hnone. revert Hc.
  unfold constraints, user_ids, message_ids. simpl.
  rewrite !andb_true_iff.
  intros [[[[[[[[H1 H2] H3] H4] H5] H6] H7] H8] H9].
  repeat split; auto.
  - apply distinct_app_fresh; [exact H8 |].
    intros a Ha. unfold likes_eqb. simpl.
    apply andb_false_iff. right. apply Z.eqb_neq. apply Hnone, Ha.
  - rewrite forallb_app, H9. simpl.
    fold (user_ids s). fold (message_ids s).
    rewrite (in_user_ids uid s me Hme), (in_message_ids mid s m Hm).
    reflexivity.
Qed.

Lemma add_like_check_false (mid : Z) (s : Store) :
  (forall l, In l (likes s) -> Likes.message_id l <> mid) ->
  in_ mid (append_message_ids (likes s) []) = false.
Proof.
  intros Hnone.
  destruct (in_ mid (append_message_ids (likes s) [])) eqn:E; [| reflexivity].
  apply add_like_check_ignores_user in E. destruct E as [l [Hl Heq]].
  exfalso. apply (Hnone l Hl Heq).
Qed.

Lemma add_like_logged_in_insert
      (store : Store) (uid mid : Z) (me : User.t) (m : Message.t) :
  constraints store = true ->
  User_query_get uid store = Some me ->
  Message_query_get mid store = Some m ->
  (forall l, In l (likes store) -> Likes.message_id l <> mid) ->
  request (add_like mid) store (Some uid) []
  = (Return (redirect "/"),
     mkCtx (add_like_row (Likes.mk uid mid) store)
           (add_like_row (Likes.mk uid mid) store)
           (Some uid) (Some me) [] []).
Proof.
  intros Hc Hme Hm Hnone.
  pose proof (query_get_id _ _ _ Hme) as [Hid _].
  rewrite request_eq, Hme.
  unfold add_like, bind, query. cbn [uow fst snd].
  rewrite (add_like_check_false mid store Hnone).
  unfold session_curr_user, get_or_404, bind, get_session, query, ret.
  cbn [uow session fst snd]. rewrite Hme.
  unfold pending, commit. simpl. rewrite Hid.
  rewrite (add_like_row_constraints uid mid me m store Hc Hme Hm Hnone).
  reflexivity.
Qed.

(** X16.  When no like of the table is on the message, a logged-in user's
    [POST /users/add_like/{id}] of an existing message appends exactly the
    edge (user, message): the message joins the user's likes, nobody
    else's likes change, and the user is sent home. *)
Theorem add_like_inserts_edge
        (store : Store) (uid mid : Z) (me : User.t) (m : Message.t) :
  constraints store = true ->
  User_query_get uid store = Some me ->
  Message_query_get mid store = Some m ->
  (forall l, In l (likes store) -> Likes.message_id l <> mid) ->
  let r := request (add_like mid) store (Some uid) [] in
  fst r = Return (redirect "/")
  /\ likes (db (snd r)) = (likes store ++ [Likes.mk uid mid])%list
  /\ likes_of_user uid (db (snd r)) = (likes_of_user uid store ++ [mid])%list
  /\ (forall other, other <> uid ->
        likes_of_user other (db (snd r)) = likes_of_user other store).
Proof.
  intros Hc Hme Hm Hnone r. subst r.
  rewrite (add_like_logged_in_insert store uid mid me m Hc Hme Hm Hnone).
  simpl. split; [reflexivity |]. split; [reflexivity |].
  unfold likes_of_user, Likes_of_user. simpl. split.
  - rewrite filter_app, map_app. simpl. rewrite Z.eqb_refl. reflexivity.
  - intros other Hother. rewrite filter_app, map_app. simpl.
    destruct (uid =? other) eqn:E.
    + apply Z.eqb_eq in E. congruence.
    + simpl. apply app_nil_r.
Qed.

Lemma add_like_inserts_edge_witness :
  let r := request (add_like 9) carol_follows_both (Some 1) [] in
  fst r = Return (redirect "/")
  /\ likes (db (snd r)) = (likes carol_follows_both ++ [Likes.mk 1 9])%list
  /\ likes_of_user 1 (db (snd r)) = (likes_of_user 1 carol_follows_both ++ [9])%list
  /\ (forall other, other <> 1 ->
        likes_of_user other (db (snd r)) = likes_of_user other carol_follows_both).
Proof.
  apply (add_like_inserts_edge carol_follows_both 1 9 alice reply);
    try reflexivity.
  simpl. intros l [<- | [<- | []]]; simpl; lia.
Defined.

Lemma delete_added_like (l : Likes.t) (s : Store) :
  ~ In l (likes s) -> delete_like_row l (add_like_row l s) = s.
Proof.
  intros Hnew. unfold delete_like_row, add_like_row. simpl.
  rewrite filter_out_appended.
  - apply store_eta.
  - intros a Ha. apply negb_true_iff.
    destruct (likes_eqb a l) eqn:E; [| reflexivity].
    apply likes_eqb_eq in E. subst a. contradiction.
  - apply negb_false_iff, likes_eqb_eq. reflexivity.
Qed.

(** X17.  When no like of the table is on the message, two likes in a row
    by the same logged-in user are a toggle: the first inserts the user's
    edge, the second removes it, and the tables are back as they were. *)
Theorem add_like_twice_restores
        (store : Store) (uid mid : Z) (me : User.t) (m : Message.t) :
  constraints store = true ->
  User_query_get uid store = Some me ->
  Message_query_get mid store = Some m ->
  (forall l, In l (likes store) -> Likes.message_id l <> mid) ->
  let liked := request (add_like mid) store (Some uid) [] in
  let r := request (add_like mid) (db (snd liked)) (Some uid) [] in
  In mid (likes_of_user uid (db (snd liked)))
  /\ fst r = Return (redirect ("/users/" ++ str uid ++ "/likes"))
  /\ db (snd r) = store.
Proof.
  intros Hc Hme Hm Hnone liked r. subst r liked.
  rewrite (add_like_logged_in_insert store uid mid me m Hc Hme Hm Hnone).
  simpl db. split.
  { unfold likes_of_user, Likes_of_user. simpl.
    rewrite filter_app, map_app. simpl. rewrite Z.eqb_refl.
    apply in_or_app. right. left. reflexivity. }
  assert (Hnew : ~ In (Likes.mk uid mid) (likes store)).
  { intros Hin. apply (Hnone _ Hin). reflexivity. }
  assert (Hfirst : Likes_of_message_first mid
                     (add_like_row (Likes.mk uid mid) store)
                   = Some (Likes.mk uid mid)).
  { unfold Likes_of_message_first. simpl. apply find_app_fresh.
    - intros a Ha. apply Z.eqb_neq. apply Hnone, Ha.
    - simpl. apply Z.eqb_refl. }
  destruct (add_like_removes_first_like
              (add_like_row (Likes.mk uid mid) store) uid me mid
              (Likes.mk uid mid)
              (add_like_row_constraints uid mid me m store Hc Hme Hm Hnone)
              Hme Hfirst) as [Hres Hdb].
  split; [exact Hres |].
  rewrite Hdb. apply delete_added_like, Hnew.
Qed.

Lemma add_like_twice_restores_witness :
  let liked := request (add_like 9) carol_follows_both (Some 1) [] in
  let r := request (add_like 9) (db (snd liked)) (Some 1) [] in
  In 9 (likes_of_user 1 (db (snd liked)))
  /\ fst r = Return (redirect ("/users/" ++ str 1 ++ "/likes"))
  /\ db (snd r) = carol_follows_both.
Proof.
  apply (add_like_twice_restores carol_follows_both 1 9 alice reply);
    try reflexivity.
  simpl. intros l [<- | [<- | []]]; simpl; lia.
Defined.

(** ** One like per message *)

Lemma add_like_db_cases
      (store : Store) (cookie : option Z) (outs : list bool) (mid : Z) :
  let after := db (snd (request (add_like mid) store cookie outs)) in
  after = store
  \/ (exists l, after = delete_like_row l store)
  \/ (in_ mid (append_message_ids (likes store) []) = false
      /\ exists u, after = add_like_row (Likes.mk u mid) store).
Proof.
  intros after. subst after. rewrite request_eq.
  unfold add_like, session_curr_user, get_or_404, g_user_id, bind, query,
    pending, commit, get_g_user, get_session, ret, raise.
  cbv beta iota delta [uow db session g_user flashes outages fst snd].
  destruct (in_ mid (append_message_ids (likes store) [])) eqn:Hcheck.
  - destruct (Likes_of_message_first mid store) as [l |];
      [| left; reflexivity].
    destruct outs as [|[|] rest]; simpl;
      destruct (constraints (delete_like_row l store));
      try (left; reflexivity);
      right; left; exists l;
      destruct (match cookie with
                | Some uid => User_query_get uid store
                | None => None
                end); reflexivity.
  - destruct cookie as [uid |]; [| left; reflexivity].
    simpl. destruct (User_query_get uid store) as [user |];
      [| left; reflexivity].
    destruct outs as [|[|] rest]; simpl;
      destruct (constraints (add_like_row (Likes.mk (User.id user) mid) store));
      try (left; reflexivity);
      right; right; (split; [reflexivity |]); exists (User.id user); reflexivity.
Qed.

(** X18.  [add_like] keeps the table at one like per message at most: it
    inserts only when no like of the table is on the message.  Whoever
    sends the request and whatever comes of it, a table in which no two
    likes are on the same message is still one afterwards. *)
Theorem add_like_one_like_per_message
        (store : Store) (cookie : option Z) (outs : list bool) (mid : Z) :
  distinct Z.eqb (map Likes.message_id (likes store)) = true ->
  distinct Z.eqb
    (map Likes.message_id
         (likes (db (snd (request (add_like mid) store cookie outs)))))
  = true.
Proof.
  intros Hd.
  destruct (add_like_db_cases store cookie outs mid)
    as [-> | [[l ->] | [Hcheck [u ->]]]].
  - exact Hd.
  - simpl. apply distinct_map_filter, Hd.
  - simpl. rewrite map_app. simpl. apply distinct_app_fresh; [exact Hd |].
    intros a Ha. apply Z.eqb_neq. intros ->.
    rewrite append_message_ids_spec in Hcheck. simpl in Hcheck.
    apply in_spec in Ha. congruence.
Qed.

Lemma add_like_one_like_per_message_witness :
  distinct Z.eqb
    (map Likes.message_id
         (likes (db (snd (request (add_like 7) carol_follows_both (Some 1) [])))))
  = true.
Proof.
  apply (add_like_one_like_per_message carol_follows_both (Some 1) [] 7).
  reflexivity.
Defined.

(** ** Editing a profile *)

Lemma distinct_map_inj_refl {A B} (eqb : B -> B -> bool) (f : A -> B)
      (l : list A) (a b : A) :
  (forall x, eqb x x = true) ->
  distinct eqb (map f l) = true ->
  In a l -> In b l -> f a = f b -> a = b.
Proof.
  intros Hrefl. induction l as [|x l IH]; simpl; [contradiction |].
  rewrite andb_true_iff, negb_true_iff. intros [Hnot Hd] Ha Hb Hab.
  assert (Hfresh : forall y, In y l -> f y <> f x).
  { intros y Hy Heq.
    assert (E : existsb (eqb (f x)) (map f l) = true).
    { apply existsb_exists. exists (f y).
      split; [apply in_map, Hy | rewrite Heq; apply Hrefl]. }
    congruence. }
  destruct Ha as [-> | Ha], Hb as [-> | Hb]; auto.
  - exfalso. apply (Hfresh b Hb). auto.
  - exfalso. apply (Hfresh a Ha). auto.
Qed.

Lemma find_by_username (s : Store) (me : User.t) :
  constraints s = true ->
  In me (users s) ->
  find (fun u => String.eqb (User.username u) (User.username me)) (users s)
  = Some me.
Proof.
  intros Hc Hin.
  assert (Hd : distinct String.eqb (map User.username (users s)) = true).
  { unfold constraints in Hc. rewrite !andb_true_iff in Hc. tauto. }
  destruct (find _ (users s)) as [u |] eqn:E.
  - apply find_some in E. destruct E as [Hu Heq]. apply String.eqb_eq in Heq.
    f_equal.
    apply (distinct_map_inj_refl String.eqb User.username (users s));
      auto using String.eqb_refl.
  - exfalso. apply (find_none _ _ E me) in Hin.
    rewrite String.eqb_refl in Hin. discriminate.
Qed.

Section ProfileEdit.

Variable check_password_hash : string -> string -> bool.

Lemma update_profile_confirmed
      (store : Store) (uid : Z) (me : User.t) (form : ProfileEditForm.t)
      (outs : list bool) :
  constraints store = true ->
  User_query_get uid store = Some me ->
  check_password_hash (User.password me) (ProfileEditForm.password form) = true ->
  request (update_profile check_password_hash form) store (Some uid) outs
  = (bind commit (fun _ => ret (redirect ("/users/" ++ str (User.id me)))))
      (mkCtx store (update_user_row (edited me form) store)
             (Some uid) (Some me) [] outs).
Proof.
  intros Hc Hme Hcheck.
  pose proof (query_get_id _ _ _ Hme) as [_ Hin].
  rewrite request_eq, Hme.
  unfold update_profile, session_curr_user, get_or_404, User_authenticate,
    bind, get_session, query, ret.
  cbv beta iota delta [uow db session g_user flashes outages fst snd].
  rewrite Hme. cbv beta iota.
  rewrite (find_by_username store me Hc Hin), Hcheck.
  reflexivity.
Qed.

(** X19.  [POST /users/profile] with a password that does not verify for
    the logged-in user changes nothing: the notice is flashed and the
    client is sent home. *)
Theorem update_profile_wrong_password
        (store : Store) (uid : Z) (me : User.t) (form : ProfileEditForm.t)
        (outs : list bool) :
  constraints store = true ->
  User_query_get uid store = Some me ->
  check_password_hash (User.password me) (ProfileEditForm.password form) = false ->
  let r := request (update_profile check_password_hash form)
                   store (Some uid) outs in
  fst r = Return (redirect "/")
  /\ flashes (snd r) = [("Wrong password !!", "danger")]
  /\ db (snd r) = store.
Proof.
  intros Hc Hme Hcheck r. subst r.
  pose proof (query_get_id _ _ _ Hme) as [_ Hin].
  rewrite request_eq, Hme.
  unfold update_profile, session_curr_user, get_or_404, User_authenticate,
    bind, get_session, query, ret, flash.
  cbv beta iota delta [uow db session g_user flashes outages fst snd].
  rewrite Hme. cbv beta iota.
  rewrite (find_by_username store me Hc Hin), Hcheck.
  repeat split.
Qed.

Lemma find_update_same (uid : Z) (new me : User.t) (l : list User.t) :
  User.id new = uid ->
  find (fun u => User.id u =? uid) l = Some me ->
  find (fun u => User.id u =? uid)
       (map (fun u' => if User.id u' =? User.id new then new else u') l)
  = Some new.
Proof.
  intros Hnew. rewrite Hnew. induction l as [|a l IH]; simpl; [discriminate |].
  destruct (User.id a =? uid) eqn:E.
  - intros _. rewrite Hnew, Z.eqb_refl. reflexivity.
  - rewrite E. exact IH.
Qed.

Lemma find_update_other (uid other : Z) (new : User.t) (l : list User.t) :
  User.id new = uid -> other <> uid ->
  find (fun u => User.id u =? other)
       (map (fun u' => if User.id u' =? User.id new then new else u') l)
  = find (fun u => User.id u =? other) l.
Proof.
  intros Hnew Hother. rewrite Hnew. induction l as [|a l IH]; simpl; [reflexivity |].
  destruct (User.id a =? uid) eqn:E.
  - apply Z.eqb_eq in E. rewrite Hnew, E.
    destruct (uid =? other) eqn:E'; [apply Z.eqb_eq in E'; congruence | exact IH].
  - destruct (User.id a =? other); [reflexivity | exact IH].
Qed.

(** X20.  With the right password, and new values the store accepts, the
    logged-in user's row takes the six submitted fields and keeps its id
    and its password hash (the submitted password only authenticates);
    every other user's row, and the messages, follows and likes, stay as
    they were; the client is sent to the profile. *)
Theorem update_profile_edits_own_row
        (store : Store) (uid : Z) (me : User.t) (form : ProfileEditForm.t) :
  constraints store = true ->
  User_query_get uid store = Some me ->
  check_password_hash (User.password me) (ProfileEditForm.password form) = true ->
  constraints (update_user_row (edited me form) store) = true ->
  let r := request (update_profile check_password_hash form)
                   store (Some uid) [] in
  fst r = Return (redirect ("/users/" ++ str uid))
  /\ User_query_get uid (db (snd r))
     = Some (User.mk uid
                     (ProfileEditForm.username form) (ProfileEditForm.email form)
                     (ProfileEditForm.image_url form)
                     (ProfileEditForm.header_image_url form)
                     (ProfileEditForm.bio form) (ProfileEditForm.location form)
                     (User.password me))
  /\ (forall other, other <> uid ->
        User_query_get other (db (snd r)) = User_query_get other store)
  /\ messages (db (snd r)) = messages store
  /\ follows (db (snd r)) = follows store
  /\ likes (db (snd r)) = likes store.
Proof.
  intros Hc Hme Hcheck Hok r. subst r.
  pose proof (query_get_id _ _ _ Hme) as [Hid _].
  rewrite (update_profile_confirmed store uid me form [] Hc Hme Hcheck).
  unfold bind, commit. cbv beta iota delta [uow outages].
  rewrite Hok. simpl. rewrite Hid.
  split; [reflexivity |]. split; [| split; [| repeat split]].
  - rewrite <- Hid.
    apply (find_update_same (User.id me) (edited me form) me);
      [reflexivity | rewrite Hid; exact Hme].
  - intros other Hother.
    apply (find_update_other uid other (edited me form));
      [exact Hid | exact Hother].
Qed.

End ProfileEdit.

Lemma update_profile_wrong_password_witness :
  let r := request (update_profile String.eqb
                      (ProfileEditForm.mk "bobby" "b@example.com" "" "" "" "" "guess"))
                   bob_likes_hello (Some 2) [] in
  fst r = Return (redirect "/")
  /\ flashes (snd r) = [("Wrong password !!", "danger")]
  /\ db (snd r) = bob_likes_hello.
Proof.
  apply (update_profile_wrong_password String.eqb bob_likes_hello 2 bob
           (ProfileEditForm.mk "bobby" "b@example.com" "" "" "" "" "guess") []);
    reflexivity.
Defined.

Lemma update_profile_edits_own_row_witness :
  let form := ProfileEditForm.mk "bobby" "b@example.com" "" "" "Here" "Hi" "h2" in
  let r := request (update_profile String.eqb form) bob_likes_hello (Some 2) [] in
  fst r = Return (redirect ("/users/" ++ str 2))
  /\ User_query_get 2 (db (snd r))
     = Some (User.mk 2 "bobby" "b@example.com" "" "" "Hi" "Here" "h2")
  /\ (forall other, other <> 2 ->
        User_query_get other (db (snd r)) = User_query_get other bob_likes_hello)
  /\ messages (db (snd r)) = messages bob_likes_hello
  /\ follows (db (snd r)) = follows bob_likes_hello
  /\ likes (db (snd r)) = likes bob_likes_hello.
Proof.
  apply (update_profile_edits_own_row String.eqb bob_likes_hello 2 bob
           (ProfileEditForm.mk "bobby" "b@example.com" "" "" "Here" "Hi" "h2"));
    reflexivity.
Defined.

Lemma update_user_row_taken_username
      (store : Store) (me other : User.t) (form : ProfileEditForm.t) :
  In me (users store) ->
  In other (users store) ->
  User.id other <> User.id me ->
  User.username other = ProfileEditForm.username form ->
  constraints (update_user_row (edited me form) store) = false.
Proof.
  intros Hme Hother Hneq Hname.
  destruct (constraints (update_user_row (edited me form) store)) eqn:E;
    [| reflexivity].
  exfalso. unfold constraints in E. rewrite !andb_true_iff in E.
  destruct E as [[[[[[[[_ Hd] _] _] _] _] _] _] _]. simpl in Hd.
  apply Hneq. change (User.id me) with (User.id (edited me form)).
  f_equal. symmetry.
  apply (distinct_map_inj_refl String.eqb User.username _
           (edited me form) other String.eqb_refl Hd).
  - apply in_map_iff. exists me. split; [| exact Hme].
    rewrite Z.eqb_refl. reflexivity.
  - apply in_map_iff. exists other. split; [| exact Hother].
    destruct (User.id other =? User.id me) eqn:E; [| reflexivity].
    apply Z.eqb_eq in E. contradiction.
  - simpl. symmetry. exact Hname.
Qed.

(** X21.  Changing the username to one another user has is not caught the
    way [signup] catches it: the [IntegrityError] of the commit escapes the
    handler (a 500), no notice is flashed, and the row keeps its old
    values. *)
Theorem update_profile_taken_username_raises
        (check_password_hash : string -> string -> bool)
        (store : Store) (uid : Z) (me other : User.t)
        (form : ProfileEditForm.t) :
  constraints store = true ->
  User_query_get uid store = Some me ->
  check_password_hash (User.password me) (ProfileEditForm.password form) = true ->
  In other (users store) ->
  User.id other <> uid ->
  User.username other = ProfileEditForm.username form ->
  let r := request (update_profile check_password_hash form)
                   store (Some uid) [] in
  fst r = Raise IntegrityError
  /\ flashes (snd r) = []
  /\ db (snd r) = store.
Proof.
  intros Hc Hme Hcheck Hother Hneq Hname r. subst r.
  pose proof (query_get_id _ _ _ Hme) as [Hid Hin].
  rewrite (update_profile_confirmed check_password_hash store uid me form []
             Hc Hme Hcheck).
  unfold bind, commit. cbv beta iota delta [uow outages].
  rewrite (update_user_row_taken_username store me other form Hin Hother);
    [repeat split | congruence | exact Hname].
Qed.

Lemma update_profile_taken_username_raises_witness :
  let r := request (update_profile String.eqb
                      (ProfileEditForm.mk "alice" "b@example.com" "" "" "" "" "h2"))
                   bob_likes_hello (Some 2) [] in
  fst r = Raise IntegrityError
  /\ flashes (snd r) = []
  /\ db (snd r) = bob_likes_hello.
Proof.
  apply (update_profile_taken_username_raises String.eqb bob_likes_hello 2
           bob alice
           (ProfileEditForm.mk "alice" "b@example.com" "" "" "" "" "h2"));
    try reflexivity.
  - simpl. left. reflexivity.
  - simpl. lia.
Defined.

(** ** Signing up *)

Lemma string_fresh (x : string) (l : list string) :
  ~ In x l -> forall a, In a l -> String.eqb a x = false.
Proof.
  intros Hnot a Ha. apply String.eqb_neq. intros ->. contradiction.
Qed.

Lemma add_user_row_constraints (u : User.t) (s : Store) :
  constraints s = true ->
  ~ In (User.id u) (user_ids s) ->
  ~ In (User.username u) (map User.username (users s)) ->
  ~ In (User.email u) (map User.email (users s)) ->
  constraints (add_user_row u s) = true.
Proof.
  intros Hc Hid Hname Hmail. revert Hc.
  unfold constraints, user_ids, message_ids. simpl.
  rewrite !andb_true_iff, !map_app. simpl.
  intros [[[[[[[[H1 H2] H3] H4] H5] H6] H7] H8] H9].
  repeat split; auto.
  - apply distinct_app_fresh; [exact H1 |].
    intros a Ha. apply Z.eqb_neq. intros Heq. apply Hid.
    unfold user_ids. rewrite <- Heq. exact Ha.
  - apply distinct_app_fresh; [exact H2 | apply string_fresh, Hname].
  - apply distinct_app_fresh; [exact H3 | apply string_fresh, Hmail].
  - eapply forallb_weaken; [| exact H5]. simpl. intros m. apply in_app_weaken.
  - eapply forallb_weaken; [| exact H7]. simpl. intros e.
    rewrite !andb_true_iff. intros [Ha Hb]. split; apply in_app_weaken; assumption.
  - eapply forallb_weaken; [| exact H9]. simpl. intros l.
    rewrite !andb_true_iff. intros [Ha Hb]. split; [apply in_app_weaken |]; assumption.
Qed.

(** [signup] is [signup_at] with the id after the highest one, which no
    user has. *)
Lemma signup_at_fresh
      (generate_password_hash : string -> string)
      (default_image_url default_header_image_url : string)
      (form : UserAddForm.t) (c : Ctx) :
  signup generate_password_hash default_image_url default_header_image_url
         form c
  = signup_at generate_password_hash default_image_url
              default_header_image_url (fresh_id (user_ids (uow c))) form c
  /\ ~ In (fresh_id (user_ids (uow c))) (user_ids (uow c)).
Proof.
  split; [reflexivity |].
  intros Hin. apply fresh_id_above in Hin. lia.
Qed.

(** X22.  Whatever id the store gives the new row, as long as no user has
    it: with a username and an email no user has, [POST /signup] appends
    one user with that id, the submitted username and email, the hash of
    the submitted password, and the submitted image url or, when that is
    blank, the default; the session is bound to the id of the new row,
    whatever session there was, and the client is sent home. *)
Theorem signup_creates_user
        (generate_password_hash : string -> string)
        (default_image_url default_header_image_url : string)
        (store : Store) (cookie : option Z) (new_id : Z)
        (form : UserAddForm.t) :
  constraints store = true ->
  ~ In new_id (user_ids store) ->
  ~ In (UserAddForm.username form) (map User.username (users store)) ->
  ~ In (UserAddForm.email form) (map User.email (users store)) ->
  let r := request (signup_at generate_password_hash default_image_url
                              default_header_image_url new_id form)
                   store cookie [] in
  let user :=
    User.mk new_id
            (UserAddForm.username form) (UserAddForm.email form)
            (if String.eqb (UserAddForm.image_url form) ""
             then default_image_url else UserAddForm.image_url form)
            default_header_image_url "" ""
            (generate_password_hash (UserAddForm.password form)) in
  fst r = Return (redirect "/")
  /\ session (snd r) = Some new_id
  /\ users (db (snd r)) = (users store ++ [user])%list
  /\ User_query_get new_id (db (snd r)) = Some user
  /\ messages (db (snd r)) = messages store
  /\ follows (db (snd r)) = follows store
  /\ likes (db (snd r)) = likes store.
Proof.
  intros Hc Hid Hname Hmail r user. subst r. rewrite request_eq.
  unfold signup_at, try_except, User_signup_at, do_login, bind, pending,
    commit, set_session, ret.
  cbv beta iota zeta delta [uow db session g_user flashes outages fst snd].
  fold (or_ (UserAddForm.image_url form) default_image_url).
  rewrite add_user_row_constraints; [| exact Hc | exact Hid | exact Hname | exact Hmail].
  cbv beta iota delta [uow db session g_user flashes outages fst snd].
  split; [reflexivity |]. split; [reflexivity |]. split; [reflexivity |].
  split; [| repeat split].
  unfold User_query_get. simpl. apply find_app_fresh.
  - intros a Ha. apply Z.eqb_neq. intros Heq. apply Hid.
    unfold user_ids. rewrite <- Heq. apply in_map. exact Ha.
  - simpl. apply Z.eqb_refl.
Qed.

Lemma signup_creates_user_witness :
  let form := UserAddForm.mk "carol" "secret" "carol@example.com" "" in
  let r := request (signup_at (fun p => p) "/static/images/default-pic.png"
                              "/static/images/warbler-hero.jpg" 4 form)
                   bob_likes_hello (Some 1) [] in
  let user :=
    User.mk 4 "carol" "carol@example.com"
            "/static/images/default-pic.png"
            "/static/images/warbler-hero.jpg" "" "" "secret" in
  fst r = Return (redirect "/")
  /\ session (snd r) = Some 4
  /\ users (db (snd r)) = (users bob_likes_hello ++ [user])%list
  /\ User_query_get 4 (db (snd r)) = Some user
  /\ messages (db (snd r)) = messages bob_likes_hello
  /\ follows (db (snd r)) = follows bob_likes_hello
  /\ likes (db (snd r)) = likes bob_likes_hello.
Proof.
  apply (signup_creates_user (fun p => p) "/static/images/default-pic.png"
           "/static/images/warbler-hero.jpg" bob_likes_hello (Some 1) 4
           (UserAddForm.mk "carol" "secret" "carol@example.com" "")).
  - reflexivity.
  - simpl. intros [H | [H | []]]; discriminate H.
  - simpl. intros [H | [H | []]]; discriminate H.
  - simpl. intros [H | [H | []]]; discriminate H.
Defined.

Lemma constraints_refuse_taken_email (u : User.t) (s : Store) :
  In (User.email u) (map User.email (users s)) ->
  constraints (add_user_row u s) = false.
Proof.
  intros Hin. unfold constraints. simpl users. rewrite (map_app User.email).
  simpl map at 3.
  rewrite (distinct_app_dup String.eqb _ _ String.eqb_refl Hin).
  rewrite andb_false_r. reflexivity.
Qed.

(** X23.  The handler does not tell the constraints apart: when the
    username is free and only the email is that of an existing user, the
    form comes back with the notice "Username already taken", and nothing
    is written. *)
Theorem signup_duplicate_email_says_username
        (generate_password_hash : string -> string)
        (default_image_url default_header_image_url : string)
        (store : Store) (cookie : option Z) (form : UserAddForm.t)
        (existing : User.t) :
  In existing (users store) ->
  User.email existing = UserAddForm.email form ->
  ~ In (UserAddForm.username form) (map User.username (users store)) ->
  let r := request (signup generate_password_hash default_image_url
                           default_header_image_url form)
                   store cookie [] in
  fst r = Return (render_template "users/signup.html" [kw_form form])
  /\ flashes (snd r) = [("Username already taken", "danger")]
  /\ session (snd r) = cookie
  /\ db (snd r) = store.
Proof.
  intros Hin Hmail _ r. subst r. rewrite request_eq.
  unfold signup, try_except, bind, User_signup, query, pending, commit. simpl.
  rewrite constraints_refuse_taken_email.
  2:{ simpl. rewrite <- Hmail. apply in_map. exact Hin. }
  repeat split.
Qed.

Lemma signup_duplicate_email_says_username_witness :
  let form := UserAddForm.mk "carol" "secret" "bob@example.com" "" in
  let r := request (signup (fun p => p) "/static/images/default-pic.png"
                           "/static/images/warbler-hero.jpg" form)
                   bob_likes_hello None [] in
  fst r = Return (render_template "users/signup.html" [kw_form form])
  /\ flashes (snd r) = [("Username already taken", "danger")]
  /\ session (snd r) = None
  /\ db (snd r) = bob_likes_hello.
Proof.
  apply (signup_duplicate_email_says_username
           (fun p => p) "/static/images/default-pic.png"
           "/static/images/warbler-hero.jpg" bob_likes_hello None
           (UserAddForm.mk "carol" "secret" "bob@example.com" "") bob).
  - simpl. right. left. reflexivity.
  - reflexivity.
  - simpl. intros [H | [H | []]]; discriminate H.
Defined.

(** ** Deleting an account leaves the other accounts *)

Lemma find_filter_other {A} (f : A -> Z) (k other : Z) (l : list A) :
  other <> k ->
  find (fun x => f x =? other) (filter (fun x => negb (f x =? k)) l)
  = find (fun x => f x =? other) l.
Proof.
  intros Hneq. induction l as [|x l IH]; simpl; [reflexivity |].
  destruct (f x =? k) eqn:E; simpl.
  - apply Z.eqb_eq in E.
    destruct (f x =? other) eqn:E'; [apply Z.eqb_eq in E'; congruence | exact IH].
  - destruct (f x =? other); [reflexivity | exact IH].
Qed.

(** X24.  [POST /users/delete] removes the record of the logged-in user
    and of nobody else: every other id is looked up afterwards as
    before. *)
Theorem delete_user_keeps_other_users
        (store : Store) (uid : Z) (me : User.t) :
  constraints store = true ->
  User_query_get uid store = Some me ->
  let r := request delete_user store (Some uid) [] in
  users (db (snd r))
  = filter (fun u => negb (User.id u =? uid)) (users store)
  /\ (forall other, other <> uid ->
        User_query_get other (db (snd r)) = User_query_get other store).
Proof.
  intros Hc Hme r. subst r.
  pose proof (query_get_id _ _ _ Hme) as [Hid _].
  rewrite (delete_user_logged_in store uid me Hc Hme). simpl.
  rewrite delete_message_rows_users, Hid. split; [reflexivity |].
  intros other Hother. unfold User_query_get. simpl.
  rewrite delete_message_rows_users, Hid.
  apply (find_filter_other User.id); exact Hother.
Qed.

Lemma delete_user_keeps_other_users_witness :
  let r := request delete_user carol_follows_both (Some 1) [] in
  users (db (snd r))
  = filter (fun u => negb (User.id u =? 1)) (users carol_follows_both)
  /\ (forall other, other <> 1 ->
        User_query_get other (db (snd r))
        = User_query_get other carol_follows_both).
Proof.
  apply (delete_user_keeps_other_users carol_follows_both 1 alice);
    reflexivity.
Defined.

(** ** The message page and the user listing *)

(** X25.  [GET /messages/{id}] never answers 404: for an id that is no
    message the template is rendered with no message, for an id that is
    one with that message, for anonymous and logged-in clients alike. *)
Theorem messages_show_never_404
        (store : Store) (cookie : option Z) (outs : list bool) (message_id : Z) :
  fst (serve (messages_show message_id) store cookie outs)
  = Return (messages_show_html (Message_query_get message_id store))
  /\ (Message_query_get message_id store = None ->
      fst (serve (messages_show message_id) store cookie outs)
      = Return (messages_show_html None))
  /\ (forall m, Message_query_get message_id store = Some m ->
                Message.id m = message_id /\ In m (messages store)).
Proof.
  rewrite serve_eq. split; [reflexivity |]. split.
  - intros Hnone. unfold messages_show, bind, query. simpl.
    rewrite Hnone. reflexivity.
  - intros m Hm. unfold Message_query_get in Hm. apply find_some in Hm.
    rewrite Z.eqb_eq in Hm. tauto.
Qed.

(** X26.  [GET /users] with no [q], or with an empty [q], lists every user
    of the table in table order; with a non-empty [q] it lists, in table
    order, exactly the users whose username the store matches against the
    pattern [%q%]. *)
Theorem list_users_search
        (like : string -> string -> bool)
        (store : Store) (cookie : option Z) (outs : list bool) :
  fst (serve (list_users like None) store cookie outs)
  = Return (users_index_html (users store))
  /\ fst (serve (list_users like (Some "")) store cookie outs)
     = Return (users_index_html (users store))
  /\ (forall q, q <> "" ->
        exists found,
          fst (serve (list_users like (Some q)) store cookie outs)
          = Return (users_index_html found)
          /\ (forall u, In u found <->
                        In u (users store)
                        /\ like (User.username u) ("%" ++ q ++ "%") = true)
          /\ (List.length found <= List.length (users store))%nat).
Proof.
  rewrite !serve_eq. split; [reflexivity |]. split; [reflexivity |].
  intros q Hq. rewrite serve_eq.
  unfold list_users. apply String.eqb_neq in Hq. rewrite Hq.
  eexists. split; [reflexivity |]. split.
  - intros u. apply filter_In.
  - apply filter_length_le.
Qed.

Lemma messages_show_never_404_witness :
  fst (serve (messages_show 99) bob_likes_hello None [])
  = Return (messages_show_html None).
Proof.
  apply (messages_show_never_404 bob_likes_hello None [] 99). reflexivity.
Defined.

Lemma list_users_search_witness :
  fst (serve (list_users (fun _ _ => true) (Some "")) bob_likes_hello None [])
  = Return (users_index_html (users bob_likes_hello)).
Proof.
  apply (list_users_search (fun _ _ => true) bob_likes_hello None []).
Defined.

(** ** Response headers *)

Lemma key_eqb_spec (a b : string) : key_eqb a b = true <-> lower a = lower b.
Proof. unfold key_eqb. apply String.eqb_eq. Qed.

Lemma key_eqb_false (a b : string) : key_eqb a b = false <-> lower a <> lower b.
Proof. unfold key_eqb. apply String.eqb_neq. Qed.

Lemma headers_get_filter_other (key k : string) (h : Headers) :
  key_eqb key k = false ->
  headers_get k (filter (fun t => negb (key_eqb (fst t) key)) h)
  = headers_get k h.
Proof.
  intros Hneq. apply key_eqb_false in Hneq.
  induction h as [|[k0 v0] h IH]; simpl; [reflexivity |].
  destruct (key_eqb k0 key) eqn:E0; simpl.
  - apply key_eqb_spec in E0.
    destruct (key_eqb k0 k) eqn:E1; [| exact IH].
    apply key_eqb_spec in E1. congruence.
  - rewrite IH. reflexivity.
Qed.

(** Reading a key after an assignment. *)
Lemma headers_get_set (key value k : string) (h : Headers) :
  headers_get k (headers_set key value h)
  = if key_eqb key k then Some value else headers_get k h.
Proof.
  induction h as [|[k0 v0] h IH]; simpl; [reflexivity |].
  destruct (key_eqb k0 key) eqn:E0; simpl.
  - destruct (key_eqb key k) eqn:E1; [reflexivity |].
    rewrite (headers_get_filter_other key k h E1).
    apply key_eqb_spec in E0. apply key_eqb_false in E1.
    destruct (key_eqb k0 k) eqn:E2; [| reflexivity].
    apply key_eqb_spec in E2. congruence.
  - rewrite IH.
    destruct (key_eqb k0 k) eqn:E2; [| reflexivity].
    destruct (key_eqb key k) eqn:E1; [| reflexivity].
    apply key_eqb_spec in E1, E2. apply key_eqb_false in E0. congruence.
Qed.

Lemma key_eqb_refl (k : string) : key_eqb k k = true.
Proof. apply key_eqb_spec. reflexivity. Qed.

Lemma filter_filter_none {A} (p : A -> bool) (l : list A) :
  filter p (filter (fun t => negb (p t)) l) = [].
Proof.
  induction l as [|a l IH]; simpl; [reflexivity |].
  destruct (p a) eqn:E; simpl; [exact IH |].
  rewrite E. exact IH.
Qed.

(** After an assignment the key occurs once. *)
Lemma headers_set_once (key value : string) (h : Headers) :
  filter (fun t => key_eqb (fst t) key) (headers_set key value h)
  = [(key, value)].
Proof.
  induction h as [|[k0 v0] h IH]; simpl.
  - rewrite key_eqb_refl. reflexivity.
  - destruct (key_eqb k0 key) eqn:E0; simpl.
    + rewrite key_eqb_refl. f_equal.
      apply (filter_filter_none (fun t => key_eqb (fst t) key)).
    + rewrite E0. exact IH.
Qed.

(** X27.  Whatever headers the response came with, [add_header] leaves it
    with exactly one [Cache-Control] pair, and its value is that of the
    last assignment, [public, max-age=0]: the [no-cache, no-store,
    must-revalidate] of the first assignment is overwritten.  [Pragma] is
    [no-cache] and [Expires] is [0].  Keys are read without regard to
    case. *)
Theorem add_header_cache_control (req : Headers) :
  headers_get "Cache-Control" (add_header req) = Some "public, max-age=0"
  /\ headers_get "cache-control" (add_header req) = Some "public, max-age=0"
  /\ headers_get "Cache-Control" (add_header req)
     <> Some "no-cache, no-store, must-revalidate"
  /\ filter (fun t => key_eqb (fst t) "Cache-Control") (add_header req)
     = [("Cache-Control", "public, max-age=0")]
  /\ headers_get "Pragma" (add_header req) = Some "no-cache"
  /\ headers_get "Expires" (add_header req) = Some "0".
Proof.
  unfold add_header. rewrite !headers_get_set, headers_set_once.
  repeat split. discriminate.
Qed.

(** X28.  [add_header] touches the three keys it assigns and no other:
    any other key reads after it as before. *)
Theorem add_header_keeps_other_headers (req : Headers) (k : string) :
  key_eqb "Cache-Control" k = false ->
  key_eqb "Pragma" k = false ->
  key_eqb "Expires" k = false ->
  headers_get k (add_header req) = headers_get k req.
Proof.
  intros H1 H2 H3. unfold add_header.
  rewrite !headers_get_set, H1, H2, H3. reflexivity.
Qed.

Lemma add_header_keeps_other_headers_witness :
  headers_get "Content-Type"
              (add_header [("Content-Type", "text/html"); ("pragma", "x")])
  = headers_get "Content-Type" [("Content-Type", "text/html"); ("pragma", "x")].
Proof.
  apply (add_header_keeps_other_headers
           [("Content-Type", "text/html"); ("pragma", "x")] "Content-Type");
    reflexivity.
Defined.

(** ** Following oneself *)


